(** * napi: the HTTP control plane, its command handlers and its router

    A shallow embedding of the two Go sources of the repository:
    - [main.go]: configuration, [loginHandler], [isAuthenticated],
      [versionHandler], [optionsHandler], [securityHeadersMiddleware] and the
      router that [main] composes;
    - [routes/route_system.go]: [executeCommand], [parseUnits], the command
      handlers and [RegisterSystemRoutes].

    Go strings are byte sequences: they are modelled by [string], whose
    characters are the 256 values of [ascii].  The libraries the sources call
    ([strings], [encoding/json], [net/http], gorilla [mux] and [sessions],
    ulule [limiter], [os], [os/exec]) are modelled next to their call sites, by
    what they do on the calls the sources make. *)

From Stdlib Require Import String Ascii List ZArith NArith Bool Lia.
From stdpp Require Import base gmap strings list fin_maps.
Import ListNotations.

Local Open Scope string_scope.
Local Open Scope list_scope.

(** ** Go's [strings] and [unicode/utf8] packages *)

Module GoStrings.

Definition byte (c : ascii) : N := N_of_ascii c.

  (** The bytes of [s] from index [n] on: [s[n:]]. *)
Fixpoint drop (n : nat) (s : string) : string :=
    match n, s with
    | O, _ => s
    | S _, EmptyString => EmptyString
    | S k, String _ s' => drop k s'
    end.

  (** [s[:n]]. *)
Fixpoint take (n : nat) (s : string) : string :=
    match n, s with
    | O, _ => EmptyString
    | S _, EmptyString => EmptyString
    | S k, String c s' => String c (take k s')
    end.

Definition RuneError : N := 65533.

Definition cont (b : N) : bool := (128 <=? b)%N && (b <=? 191)%N.

  (** [utf8.DecodeRuneInString]: the first rune of [s] and its width in
      bytes; an invalid or truncated encoding is [RuneError] of width 1. *)
Definition DecodeRuneInString (s : string) : N * nat :=
    match s with
    | EmptyString => (RuneError, 0%nat)
    | String c0 t =>
      let s0 := byte c0 in
      if (s0 <? 128)%N then (s0, 1%nat)
      else if (s0 <? 194)%N || (244 <? s0)%N then (RuneError, 1%nat)
      else
        let sz : nat :=
          if (s0 <? 224)%N then 2%nat else if (s0 <? 240)%N then 3%nat else 4%nat in
        let lo : N :=
          if (s0 =? 224)%N then 160%N else if (s0 =? 240)%N then 144%N else 128%N in
        let hi : N :=
          if (s0 =? 237)%N then 159%N else if (s0 =? 244)%N then 143%N else 191%N in
        if (String.length s <? sz)%nat then (RuneError, 1%nat)
        else
          match t with
          | EmptyString => (RuneError, 1%nat)
          | String c1 t1 =>
            let s1 := byte c1 in
            if (s1 <? lo)%N || (hi <? s1)%N then (RuneError, 1%nat)
            else if (sz <=? 2)%nat then
              (N.lor (N.shiftl (N.land s0 31) 6) (N.land s1 63), 2%nat)
            else
              match t1 with
              | EmptyString => (RuneError, 1%nat)
              | String c2 t2 =>
                let s2 := byte c2 in
                if negb (cont s2) then (RuneError, 1%nat)
                else if (sz <=? 3)%nat then
                  (N.lor (N.shiftl (N.land s0 15) 12)
                     (N.lor (N.shiftl (N.land s1 63) 6) (N.land s2 63)), 3%nat)
                else
                  match t2 with
                  | EmptyString => (RuneError, 1%nat)
                  | String c3 _ =>
                    let s3 := byte c3 in
                    if negb (cont s3) then (RuneError, 1%nat)
                    else
                      (N.lor (N.shiftl (N.land s0 7) 18)
                         (N.lor (N.shiftl (N.land s1 63) 12)
                            (N.lor (N.shiftl (N.land s2 63) 6) (N.land s3 63))),
                       4%nat)
                  end
              end
          end
    end.

  (** [for i, r := range s]: the runes of [s], each with the bytes that
      encode it.  Every step consumes at least one byte, so [String.length s]
      steps are enough. *)
Fixpoint range_fuel (fuel : nat) (s : string) : list (N * string) :=
    match fuel with
    | O => []
    | S f =>
      match s with
      | EmptyString => []
      | String _ _ =>
        let '(r, w) := DecodeRuneInString s in
        (r, take w s) :: range_fuel f (drop w s)
      end
    end.

Definition range (s : string) : list (N * string) :=
    range_fuel (String.length s) s.

  (** [unicode.IsSpace]: the Latin-1 cases, then the [White_Space] table. *)
Definition IsSpace (r : N) : bool :=
    if (r <=? 255)%N then
      ((9 <=? r)%N && (r <=? 13)%N) || (r =? 32)%N || (r =? 133)%N || (r =? 160)%N
    else
      (r =? 5760)%N || ((8192 <=? r)%N && (r <=? 8202)%N)
      || (r =? 8232)%N || (r =? 8233)%N || (r =? 8239)%N
      || (r =? 8287)%N || (r =? 12288)%N.

  (** The table [asciiSpace]: tab, newline, vertical tab, form feed,
      carriage return and space. *)
Definition asciiSpace (c : ascii) : bool :=
    let b := byte c in ((9 <=? b)%N && (b <=? 13)%N) || (b =? 32)%N.

  (** Close the field being read, if there is one.  [cur] holds the bytes
      of the current field, [None] between fields. *)
Definition flush (cur : option string) (rest : list string) : list string :=
    match cur with
    | Some f => f :: rest
    | None => rest
    end.

  (** [strings.FieldsFunc] over the decoded runes. *)
Fixpoint FieldsFunc_runes (f : N -> bool) (rs : list (N * string))
           (cur : option string) : list string :=
    match rs with
    | [] => flush cur []
    | (r, bs) :: rs' =>
      if f r then flush cur (FieldsFunc_runes f rs' None)
      else FieldsFunc_runes f rs'
             (Some (match cur with Some x => x +:+ bs | None => bs end))
    end.

Definition FieldsFunc (s : string) (f : N -> bool) : list string :=
    FieldsFunc_runes f (range s) None.

  (** The fast path of [strings.Fields] for strings of ASCII bytes only. *)
Fixpoint Fields_ascii (s : string) (cur : option string) : list string :=
    match s with
    | EmptyString => flush cur []
    | String c s' =>
      if asciiSpace c then flush cur (Fields_ascii s' None)
      else Fields_ascii s'
             (Some (match cur with
                    | Some x => x +:+ String c EmptyString
                    | None => String c EmptyString
                    end))
    end.

  (** [setBits >= utf8.RuneSelf]: some byte of [s] is not ASCII. *)
Fixpoint hasNonASCII (s : string) : bool :=
    match s with
    | EmptyString => false
    | String c s' => (128 <=? byte c)%N || hasNonASCII s'
    end.

  (** [strings.Fields]. *)
Definition Fields (s : string) : list string :=
    if hasNonASCII s then FieldsFunc s IsSpace else Fields_ascii s None.

  (** [strings.Split(s, sep)] for a separator of one byte, the only kind the
      sources pass: the pieces of [s] between the occurrences of [sep]; one
      more piece than there are separators. *)
Fixpoint Split_from (s : string) (sep : ascii) (cur : string) : list string :=
    match s with
    | EmptyString => [cur]
    | String c s' =>
      if Ascii.eqb c sep then cur :: Split_from s' sep EmptyString
      else Split_from s' sep (cur +:+ String c EmptyString)
    end.

Definition Split (s : string) (sep : ascii) : list string :=
    Split_from s sep EmptyString.

  (** [strings.Contains(s, substr)]: [substr] starts at some index of [s]. *)
Fixpoint Contains (s substr : string) : bool :=
    String.prefix substr s
    || match s with
       | EmptyString => false
       | String _ s' => Contains s' substr
       end.

  (** [strings.Join(elems, sep)]. *)
Definition Join (elems : list string) (sep : string) : string :=
    String.concat sep elems.

End GoStrings.

Import GoStrings.

Definition nl : ascii := "010"%char.
Definition quote : string := String "034"%char EmptyString.

(** ** [routes/route_system.go]: units and their parser *)

Record Unit := mkUnit {
  UNIT : string;
  LOAD : string;
  ACTIVE : string;
  SUB : string;
  DESCRIPTION : string
}.

(** Go's [error] values, by their message; [None] is [nil]. *)
Definition error := option string.

(** [fields[i]] for an index the caller has checked to be in range. *)
Definition at_index (fields : list string) (i : nat) : string :=
  nth i fields EmptyString.

(** One turn of the loop of [parseUnits]: the two [continue]s, then the
    [append]. *)
Definition parseUnits_body (unitType : string) (units : list Unit)
           (line : string) : list Unit :=
  let fields := Fields line in
  if (length fields <? 5)%nat then units
  else if negb (Contains (at_index fields 0) unitType) then units
  else
    let unit := {| UNIT := at_index fields 0;
                   LOAD := at_index fields 1;
                   ACTIVE := at_index fields 2;
                   SUB := at_index fields 3;
                   DESCRIPTION := Join (skipn 4 fields) " " |} in
    units ++ [unit].

Definition parseUnits (data unitType : string) : list Unit * error :=
  let lines := Split data nl in
  let units := fold_left (parseUnits_body unitType) lines [] in
  (units, None).

(** ** JSON values, as [encoding/json] reads and writes them *)

Module Json.

Inductive value :=
  | Null
  | Bool (b : bool)
  | Number (n : Z)
  | Str (s : string)
  | Array (items : list value)
  | Object (members : list (string * value)).

  (** A Go [map[string]string] literal, encoded with its keys in the order
      given here (the encoder sorts the keys; the literals below are written
      sorted). *)
Definition of_strings (m : list (string * string)) : value :=
    Object (map (fun kv => (fst kv, Str (snd kv))) m).

End Json.

Definition Unit_json (u : Unit) : Json.value :=
  Json.Object [("UNIT", Json.Str (UNIT u));
               ("LOAD", Json.Str (LOAD u));
               ("ACTIVE", Json.Str (ACTIVE u));
               ("SUB", Json.Str (SUB u));
               ("DESCRIPTION", Json.Str (DESCRIPTION u))].

Definition Units_json (us : list Unit) : Json.value :=
  Json.Array (map Unit_json us).

(** ** Requests, responses and the state a handler works on *)

(** The values of a gorilla session: [session.Values], here with string
    keys and string values, the only ones the sources store. *)
Abbreviation Values := (gmap string string).

Record Request := mkRequest {
  Method : string;
  Path : string;                       (* r.URL.Path *)
  Query : gmap string (list string);   (* r.URL.Query() *)
  Body : option Json.value;            (* the JSON value a decoder reads from
                                          r.Body; None when it reads none *)
  Cookie : option Values;              (* the "session" cookie when the store
                                          decodes it; None otherwise *)
  RemoteAddr : string;                 (* the client address, key of the limiters *)
  At : Z;                              (* time.Now() while the request is served,
                                          in nanoseconds *)
  Preflight : bool                     (* carries Access-Control-Request-Method *)
}.

(** [url.Values.Get]: the first value of the key, the empty string when
    the key is absent. *)
Definition Get (q : gmap string (list string)) (key : string) : string :=
  match q !! key with
  | Some (v :: _) => v
  | _ => EmptyString
  end.

Inductive Payload :=
| NoBody
| Text (s : string)
| JSON (v : Json.value).

Record ResponseWriter := mkResponseWriter {
  Status : nat;
  Header : gmap string string;
  Sent : Payload;
  SetCookie : list Values              (* one entry for each session.Save *)
}.

(** What a handler does to the world outside the process. *)
Inductive Effect :=
| Spawn (argv : list string)
| FileWrite (path content : string)
| FileRead (path : string).

Inductive Stream := Stdout | Stderr.

(** A finished process: whether it could be started, its exit status and
    what it wrote, in the order of the writes. *)
Record ProcResult := mkProcResult {
  started : bool;
  exit_status : Z;
  written : list (Stream * string)
}.

Fixpoint output_of (only : option Stream) (ws : list (Stream * string)) : string :=
  match ws with
  | [] => EmptyString
  | (Stdout, x) :: ws' =>
    match only with
    | Some Stderr => output_of only ws'
    | _ => x +:+ output_of only ws'
    end
  | (Stderr, x) :: ws' =>
    match only with
    | Some Stdout => output_of only ws'
    | _ => x +:+ output_of only ws'
    end
  end.

Definition stdout_of (p : ProcResult) : string := output_of (Some Stdout) (written p).
Definition combined_of (p : ProcResult) : string := output_of None (written p).

(** [cmd.Run()] and [cmd.Output()] return a nil error exactly when the
    process started and exited with status 0. *)
Definition succeeded (p : ProcResult) : bool := started p && (exit_status p =? 0)%Z.

(** The operating system as the handlers meet it: the external programs
    are opaque, so what a command line does is a parameter; so is whether a
    path can be written.  Files are a finite map from paths to contents
    (permission bits and special files are outside the model). *)
Record Env := mkEnv {
  run : list string -> ProcResult;
  writable : string -> bool
}.

(** A counter of a limiter store: the number of hits and the time at which
    the window ends. *)
Abbreviation Counters := (gmap string (Z * Z)).

Record Server := mkServer {
  files : gmap string string;
  effects : list Effect;               (* newest last *)
  generalStore : Counters;
  loginStore : Counters;
  systemStore : Counters
}.

(** The state during one request: the server, the response being written
    and the session registry of the request ([None] until the store is first
    asked, then the one session object every later [store.Get] returns). *)
Record State := mkState {
  server : Server;
  w : ResponseWriter;
  registry : option Values
}.

Definition M (A : Type) : Type := State -> A * State.

Definition ret {A} (a : A) : M A := fun st => (a, st).
Definition bind {A B} (m : M A) (k : A -> M B) : M B :=
  fun st => let '(a, st') := m st in k a st'.

Declare Scope go_scope.
Delimit Scope go_scope with go.
Notation "'do' x <- m ; k" := (bind m (fun x => k))
  (at level 10, x name, m at level 100, k at level 200) : go_scope.
Notation "'do' ' pat <- m ; k" := (bind m (fun x => match x with pat => k end))
  (at level 10, pat pattern, m at level 100, k at level 200) : go_scope.
Notation "'exec' m ; k" := (bind m (fun _ => k))
  (at level 10, m at level 100, k at level 200) : go_scope.
Local Open Scope go_scope.

Definition Handler : Type := Request -> M unit.

Definition with_w (f : ResponseWriter -> ResponseWriter) : M unit :=
  fun st => (tt, {| server := server st; w := f (w st); registry := registry st |}).

Definition with_server (f : Server -> Server) : M unit :=
  fun st => (tt, {| server := f (server st); w := w st; registry := registry st |}).

Definition get_server : M Server := fun st => (server st, st).

(** [w.Header().Set(k, v)] *)
Definition Header_Set (k v : string) : M unit :=
  with_w (fun r => {| Status := Status r; Header := <[k := v]> (Header r);
                      Sent := Sent r; SetCookie := SetCookie r |}).

(** [w.WriteHeader(code)] *)
Definition WriteHeader (code : nat) : M unit :=
  with_w (fun r => {| Status := code; Header := Header r;
                      Sent := Sent r; SetCookie := SetCookie r |}).

Definition Write (p : Payload) : M unit :=
  with_w (fun r => {| Status := Status r; Header := Header r;
                      Sent := p; SetCookie := SetCookie r |}).

(** [http.Error(w, msg, code)]: a plain-text body, the message and a
    newline, under the given status. *)
Definition http_Error (msg : string) (code : nat) : M unit :=
  exec Header_Set "Content-Type" "text/plain; charset=utf-8" ;
  exec Header_Set "X-Content-Type-Options" "nosniff" ;
  exec WriteHeader code ;
  Write (Text (msg +:+ String nl EmptyString)).

(** [json.NewEncoder(w).Encode(v)] *)
Definition Encode (v : Json.value) : M unit := Write (JSON v).

Definition StatusOK : nat := 200.
Definition StatusNoContent : nat := 204.
Definition StatusBadRequest : nat := 400.
Definition StatusUnauthorized : nat := 401.
Definition StatusNotFound : nat := 404.
Definition StatusMethodNotAllowed : nat := 405.
Definition StatusTooManyRequests : nat := 429.
Definition StatusInternalServerError : nat := 500.

Definition log_effect (e : Effect) : M unit :=
  with_server (fun s => {| files := files s; effects := effects s ++ [e];
                           generalStore := generalStore s;
                           loginStore := loginStore s;
                           systemStore := systemStore s |}).

Section Commands.

Context (env : Env).

  (** [exec.Command(argv...).Output()]: the standard output of the process,
      and an error unless it started and exited with status 0. *)
Definition exec_Output (argv : list string) : M (string * error) :=
    exec log_effect (Spawn argv) ;
    let p := run env argv in
    ret (stdout_of p, if succeeded p then None else Some "exit status").

  (** [exec.Command(argv...).Run()] *)
Definition exec_Run (argv : list string) : M error :=
    exec log_effect (Spawn argv) ;
    ret (if succeeded (run env argv) then None else Some "exit status").

  (** [os.WriteFile(path, data, 0644)]: creates or truncates the file. *)
Definition os_WriteFile (path data : string) : M error :=
    exec log_effect (FileWrite path data) ;
    if writable env path then
      exec with_server (fun s => {| files := <[path := data]> (files s);
                               effects := effects s;
                               generalStore := generalStore s;
                               loginStore := loginStore s;
                               systemStore := systemStore s |}) ;
      ret None
    else ret (Some "open failed").

  (** [os.ReadFile(path)] *)
Definition os_ReadFile (path : string) : M (string * error) :=
    exec log_effect (FileRead path) ;
    do s <- get_server ;
    match files s !! path with
    | Some data => ret (data, None)
    | None => ret (EmptyString, Some "no such file")
    end.

Definition executeCommand (command : string) : M (string * error) :=
    do '(out, err) <- exec_Output ["sh"; "-c"; command] ;
    match err with
    | Some e => ret (EmptyString, Some e)
    | None => ret (out, None)
    end.

Definition ListServices : Handler := fun r =>
    do '(serviceStdout, err) <- executeCommand "systemctl --user list-units --type=service --all" ;
    match err with
    | Some _ => http_Error "Error fetching services" StatusInternalServerError
    | None =>
      let '(services, err) := parseUnits serviceStdout ".service" in
      match err with
      | Some _ => http_Error "Error parsing services output" StatusInternalServerError
      | None =>
        do '(socketStdout, err) <- executeCommand "systemctl --user list-units --type=socket --all" ;
        match err with
        | Some _ => http_Error "Error fetching sockets" StatusInternalServerError
        | None =>
          let '(sockets, err) := parseUnits socketStdout ".socket" in
          match err with
          | Some _ => http_Error "Error parsing sockets output" StatusInternalServerError
          | None =>
            exec Header_Set "Content-Type" "application/json" ;
            Encode (Json.Object [("services", Units_json services);
                                 ("sockets", Units_json sockets)])
          end
        end
      end
    end.

  (** [StartService], [StopService] and [RestartService] differ by the verb
      handed to systemctl and by two words of their messages. *)
Definition service_action (verb doing done : string) : Handler := fun r =>
    let service := Get (Query r) "target" in
    if String.eqb service EmptyString then
      http_Error "Service name is required" StatusBadRequest
    else
      do err <- exec_Run ["systemctl"; "--user"; verb; service] ;
      match err with
      | Some _ =>
        http_Error ("Error " +:+ doing +:+ " service " +:+ service) StatusInternalServerError
      | None =>
        exec Header_Set "Content-Type" "application/json" ;
        Encode (Json.of_strings
                  [("message", "Service " +:+ service +:+ " " +:+ done +:+ " successfully")])
      end.

Definition StartService : Handler := service_action "start" "starting" "started".
Definition StopService : Handler := service_action "stop" "stopping" "stopped".
Definition RestartService : Handler := service_action "restart" "restarting" "restarted".

Definition WriteFile : Handler := fun r =>
    let filename := Get (Query r) "filename" in
    let filepath := Get (Query r) "filepath" in
    let filecontent := Get (Query r) "filecontent" in
    if String.eqb filename EmptyString || String.eqb filepath EmptyString
       || String.eqb filecontent EmptyString then
      http_Error "Filename, filepath, and filecontent are required" StatusBadRequest
    else
      let fullPath := filepath +:+ "/" +:+ filename in
      do err <- os_WriteFile fullPath filecontent ;
      match err with
      | Some _ =>
        http_Error ("Error saving file " +:+ filename +:+ " at " +:+ filepath)
                   StatusInternalServerError
      | None =>
        exec Header_Set "Content-Type" "application/json" ;
        Encode (Json.of_strings
                  [("message", "File " +:+ filename +:+ " saved successfully at " +:+ filepath)])
      end.

Definition ReadFile : Handler := fun r =>
    let filename := Get (Query r) "filename" in
    let filepath := Get (Query r) "filepath" in
    if String.eqb filename EmptyString || String.eqb filepath EmptyString then
      http_Error "Filename and filepath are required" StatusBadRequest
    else
      let fullPath := filepath +:+ "/" +:+ filename in
      do '(fileContent, err) <- os_ReadFile fullPath ;
      match err with
      | Some _ =>
        http_Error ("Error reading file " +:+ filename +:+ " at " +:+ filepath)
                   StatusInternalServerError
      | None =>
        exec Header_Set "Content-Type" "application/json" ;
        Encode (Json.Object [("content", Json.Str fileContent)])
      end.

Definition ScheduleTask : Handler := fun r =>
    let time := Get (Query r) "time" in
    let command := Get (Query r) "command" in
    if String.eqb time EmptyString || String.eqb command EmptyString then
      http_Error "Both time and command are required" StatusBadRequest
    else
      let atCommand := "echo " +:+ quote +:+ command +:+ quote +:+ " | at " +:+ time in
      do '(_, err) <- executeCommand atCommand ;
      match err with
      | Some _ => http_Error ("Error scheduling task at " +:+ time) StatusInternalServerError
      | None =>
        exec Header_Set "Content-Type" "application/json" ;
        Encode (Json.of_strings [("message", "Task scheduled at " +:+ time)])
      end.

End Commands.

(** ** [main.go]: configuration, sessions and the login handler *)

(** The process-wide variables that [init] loads from the environment.
    [init] stops the process unless all three are non-empty. *)
Record Config := mkConfig {
  USERNAME : string;
  PASSWORD : string;
  VERSION : string
}.

Definition init_ok (cfg : Config) : bool :=
  negb (String.eqb (USERNAME cfg) EmptyString
        || String.eqb (PASSWORD cfg) EmptyString
        || String.eqb (VERSION cfg) EmptyString).

(** The anonymous struct [creds] of [loginHandler]. *)
Record Credentials := mkCredentials {
  Username : string;
  Password : string
}.

Module JsonDecode.

Definition upper (c : ascii) : ascii :=
    let b := byte c in
    if (97 <=? b)%N && (b <=? 122)%N then ascii_of_N (b - 32) else c.

  (** The folding under which [encoding/json] compares an object key with a
      field name: ASCII letters without their case, and the two other runes
      that fold to an ASCII letter, U+017F (long s, bytes C5 BF) and U+212A
      (Kelvin sign, bytes E2 84 AA). *)
Fixpoint foldName (s : string) : string :=
    match s with
    | EmptyString => EmptyString
    | String c t =>
      match t with
      | String c1 t1 =>
        if (byte c =? 197)%N && (byte c1 =? 191)%N then String "S"%char (foldName t1)
        else
          match t1 with
          | String c2 t2 =>
            if (byte c =? 226)%N && (byte c1 =? 132)%N && (byte c2 =? 170)%N
            then String "K"%char (foldName t2)
            else String (upper c) (foldName t)
          | EmptyString => String (upper c) (foldName t)
          end
      | EmptyString => String (upper c) EmptyString
      end
    end.

Definition names (key field : string) : bool :=
    String.eqb (foldName key) (foldName field).

  (** Storing a JSON value into a Go [string]: a string is stored, [null]
      leaves the field as it is, anything else is a type error. *)
Definition into_string (v : Json.value) (old : string) : string * error :=
    match v with
    | Json.Str s => (s, None)
    | Json.Null => (old, None)
    | _ => (old, Some "cannot unmarshal into Go struct field of type string")
    end.

Definition first_error (e1 e2 : error) : error :=
    match e1 with Some _ => e1 | None => e2 end.

  (** The members of an object, in order: a key that names a field sets it,
      any other key is skipped; a type error is remembered and decoding goes
      on. *)
Fixpoint members (ms : list (string * Json.value)) (c : Credentials) (err : error)
    : Credentials * error :=
    match ms with
    | [] => (c, err)
    | (k, v) :: ms' =>
      if names k "username" then
        let '(s, e) := into_string v (Username c) in
        members ms' {| Username := s; Password := Password c |} (first_error err e)
      else if names k "password" then
        let '(s, e) := into_string v (Password c) in
        members ms' {| Username := Username c; Password := s |} (first_error err e)
      else members ms' c err
    end.

  (** [json.NewDecoder(r.Body).Decode(&creds)] *)
Definition Decode (body : option Json.value) (creds : Credentials) : Credentials * error :=
    match body with
    | None => (creds, Some "EOF or invalid character")
    | Some Json.Null => (creds, None)
    | Some (Json.Object ms) => members ms creds None
    | Some _ => (creds, Some "cannot unmarshal into Go value of type struct")
    end.

End JsonDecode.

Definition with_registry (f : option Values -> option Values) : M unit :=
  fun st => (tt, {| server := server st; w := w st; registry := f (registry st) |}).

(** [store.Get(r, "session")]: the session of the request's registry; on
    the first call it is read from the cookie, and is new and empty when the
    cookie is absent or does not decode. *)
Definition store_Get (r : Request) : M Values :=
  fun st =>
    match registry st with
    | Some v => (v, st)
    | None =>
      let v := match Cookie r with Some c => c | None => ∅ end in
      (v, {| server := server st; w := w st; registry := Some v |})
    end.

(** [session.Values = make(map[interface{}]interface{})] *)
Definition session_clear : M unit := with_registry (fun _ => Some ∅).

(** [session.Values[key] = value] *)
Definition session_put (key value : string) : M unit :=
  with_registry (fun o => Some (<[key := value]> (match o with Some v => v | None => ∅ end))).

(** [session.Save(r, w)]: the cookie store writes the values into a
    Set-Cookie header. *)
Definition session_Save : M unit :=
  fun st =>
    let v := match registry st with Some v => v | None => ∅ end in
    with_w (fun r => {| Status := Status r; Header := Header r; Sent := Sent r;
                        SetCookie := SetCookie r ++ [v] |}) st.

Section Main.

Context (cfg : Config).

  (** The line written to the log under [VERBOSE_LOG] is left out: the log
      file is outside the model.  A cookie store leaves [session.ID] empty. *)
Definition loginHandler : Handler := fun r =>
    let '(creds, err) :=
      JsonDecode.Decode (Body r) {| Username := EmptyString; Password := EmptyString |} in
    match err with
    | Some _ => http_Error "Invalid request payload" StatusBadRequest
    | None =>
      if String.eqb (Username creds) (USERNAME cfg)
         && String.eqb (Password creds) (PASSWORD cfg) then
        do _ <- store_Get r ;
        exec session_clear ;
        exec session_Save ;
        do _ <- store_Get r ;
        exec session_put "user" (USERNAME cfg) ;
        exec session_Save ;
        exec Header_Set "Content-Type" "application/json" ;
        Encode (Json.of_strings [("message", "Login successful");
                                 ("sessionId", EmptyString)])
      else http_Error "Invalid username or password" StatusUnauthorized
    end.

Definition isAuthenticated (next : Handler) : Handler := fun r =>
    do session <- store_Get r ;
    match session !! "user" with
    | Some _ => next r
    | None => http_Error "Unauthorized" StatusUnauthorized
    end.

Definition versionHandler : Handler := fun r =>
    exec Header_Set "Content-Type" "application/json" ;
    Encode (Json.of_strings [("version", VERSION cfg)]).

End Main.

Definition optionsHandler : Handler := fun r =>
  exec Header_Set "Access-Control-Allow-Methods" "GET, POST, OPTIONS" ;
  exec Header_Set "Access-Control-Allow-Headers" "Content-Type, Authorization" ;
  WriteHeader StatusNoContent.

Definition securityHeadersMiddleware (next : Handler) : Handler := fun r =>
  exec Header_Set "Content-Security-Policy" "default-src 'self'" ;
  exec Header_Set "Strict-Transport-Security" "max-age=63072000; includeSubDomains; preload" ;
  exec Header_Set "X-Content-Type-Options" "nosniff" ;
  exec Header_Set "X-Frame-Options" "DENY" ;
  exec Header_Set "X-XSS-Protection" "1; mode=block" ;
  next r.

(** [cors.Handler(corsOptions)]: a preflight request is answered by the
    middleware; any other request goes on.  The CORS headers themselves
    depend on the Origin header and are left out. *)
Definition corsHandler (next : Handler) : Handler := fun r =>
  if String.eqb (Method r) "OPTIONS" && Preflight r then WriteHeader StatusOK
  else next r.

(** ** The rate limiters *)

Module Limiter.

Record Rate := mkRate {
    Period : Z;                        (* nanoseconds *)
    Limit : Z
  }.

Definition Minute : Z := 60 * 1000000000.

  (** Modelled from the spec: the limiter itself (package
      github.com/ulule/limiter/v3 and its memory store) is not among the
      sources, which only configure it.  Per the spec a bucket is keyed by the
      client address and holds a count against a period and a limit, in a
      fixed window: the first hit of a key opens a window of one period; a hit
      in an open window adds one to its count; a hit once the window has ended
      opens a new one.  The limit is reached when the count exceeds it. *)
Definition Increment (store : Counters) (key : string) (now period : Z)
    : Z * Counters :=
    match store !! key with
    | Some (count, expiration) =>
      if negb (expiration =? 0)%Z && (expiration <=? now)%Z
      then (1%Z, <[key := (1%Z, (now + period)%Z)]> store)
      else ((count + 1)%Z, <[key := ((count + 1)%Z, expiration)]> store)
    | None => (1%Z, <[key := (1%Z, (now + period)%Z)]> store)
    end.

  (** [limiter.Get]: count the hit, and tell whether the limit is reached. *)
Definition Get (rate : Rate) (store : Counters) (key : string) (now : Z)
    : bool * Counters :=
    let '(count, store') := Increment store key now (Period rate) in
    ((Limit rate <? count)%Z, store').

End Limiter.

Inductive LimiterId := General | Login | System.

(** [generalRate] and [loginRate] of [main], [systemRate] of package routes. *)
Definition rate_of (l : LimiterId) : Limiter.Rate :=
  match l with
  | General => {| Limiter.Period := 1 * Limiter.Minute; Limiter.Limit := 10 |}
  | Login => {| Limiter.Period := 10 * Limiter.Minute; Limiter.Limit := 25 |}
  | System => {| Limiter.Period := 1 * Limiter.Minute; Limiter.Limit := 70 |}
  end.

Definition store_of (l : LimiterId) (s : Server) : Counters :=
  match l with
  | General => generalStore s
  | Login => loginStore s
  | System => systemStore s
  end.

Definition set_store (l : LimiterId) (c : Counters) (s : Server) : Server :=
  match l with
  | General => {| files := files s; effects := effects s; generalStore := c;
                  loginStore := loginStore s; systemStore := systemStore s |}
  | Login => {| files := files s; effects := effects s; generalStore := generalStore s;
                loginStore := c; systemStore := systemStore s |}
  | System => {| files := files s; effects := effects s; generalStore := generalStore s;
                 loginStore := loginStore s; systemStore := c |}
  end.

(** [stdlib.NewMiddleware(l).Handler]: the key is the client address; a
    request over the limit is answered 429 and the next handler is not
    called.  (The X-RateLimit headers are left out.) *)
Definition limiterMiddleware (l : LimiterId) (next : Handler) : Handler := fun r =>
  do s <- get_server ;
  let '(reached, c) := Limiter.Get (rate_of l) (store_of l s) (RemoteAddr r) (At r) in
  exec with_server (set_store l c) ;
  if reached then http_Error "Limit exceeded" StatusTooManyRequests
  else next r.

(** ** The router (gorilla mux) *)

Inductive Middleware :=
| Cors
| SecurityHeaders
| Limit (l : LimiterId)
| IsAuthenticated.

Inductive Endpoint :=
| LoginHandler
| VersionHandler
| OptionsHandler
| ListServicesHandler
| StartServiceHandler
| StopServiceHandler
| RestartServiceHandler
| WriteFileHandler
| ReadFileHandler
| ScheduleTaskHandler.

(** A route registered with [Handle] or [HandleFunc] and [Methods]: its
    path, its methods, the wrappers written around the handler at the call,
    outermost first, and the handler. *)
Record Route := mkRoute {
  Tpl : string;
  Methods : list string;
  Wrap : list Middleware;
  Target : Endpoint
}.

(** [PathPrefix(p).Subrouter()] with its own [Use] and routes. *)
Record Subrouter := mkSubrouter {
  Prefix : string;
  SubUse : list Middleware;
  SubRoutes : list Route
}.

Inductive Entry :=
| Leaf (r : Route)
| Sub (s : Subrouter).

Record Router := mkRouter {
  Entries : list Entry;
  Use : list Middleware
}.

Inductive RouteMatch :=
| Found (chain : list Middleware) (e : Endpoint)
| MethodMismatch
| NotFound.

Definition has_method (m : string) (ms : list string) : bool :=
  existsb (String.eqb m) ms.

(** The routes of a subrouter, in the order of their registration: the first
    whose path and method both match wins; a path that matches under another
    method is remembered. *)
Fixpoint match_routes (prefix : string) (rs : list Route) (r : Request) (mismatch : bool)
  : option Route * bool :=
  match rs with
  | [] => (None, mismatch)
  | rt :: rs' =>
    if String.eqb (Path r) (prefix +:+ Tpl rt) then
      if has_method (Method r) (Methods rt) then (Some rt, mismatch)
      else match_routes prefix rs' r true
    else match_routes prefix rs' r mismatch
  end.

(** [Router.Match]: the middlewares of the router go around those of the
    subrouter, which go around the wrappers of the route; they are built only
    for a match. *)
Fixpoint match_entries (use : list Middleware) (es : list Entry) (r : Request)
         (mismatch : bool) : RouteMatch :=
  match es with
  | [] => if mismatch then MethodMismatch else NotFound
  | Leaf rt :: es' =>
    match match_routes EmptyString [rt] r mismatch with
    | (Some rt', _) => Found (use ++ Wrap rt') (Target rt')
    | (None, mm) => match_entries use es' r mm
    end
  | Sub s :: es' =>
    if String.prefix (Prefix s) (Path r) then
      match match_routes (Prefix s) (SubRoutes s) r mismatch with
      | (Some rt', _) => Found (use ++ SubUse s ++ Wrap rt') (Target rt')
      | (None, mm) => match_entries use es' r mm
      end
    else match_entries use es' r mismatch
  end.

Definition Match (rt : Router) (r : Request) : RouteMatch :=
  match_entries (Use rt) (Entries rt) r false.

(** [r.Handle(path, h).Methods(ms...)] and [r.Use(mw)] *)
Definition Handle (rt : Router) (path : string) (wrap : list Middleware)
           (h : Endpoint) (ms : list string) : Router :=
  {| Entries := Entries rt ++ [Leaf {| Tpl := path; Methods := ms; Wrap := wrap; Target := h |}];
     Use := Use rt |}.

Definition Router_Use (rt : Router) (mw : Middleware) : Router :=
  {| Entries := Entries rt; Use := Use rt ++ [mw] |}.

Definition NewRouter : Router := {| Entries := []; Use := [] |}.

(** The router that [main] hands to [http.ListenAndServe], built by the
    calls of [main] in their order. *)
Definition main : Router :=
  let r := NewRouter in
  let r := Router_Use r Cors in
  let r := Router_Use r SecurityHeaders in
  let r := Handle r "/login" [Limit Login] LoginHandler ["POST"; "OPTIONS"] in
  let r := Handle r "/version" [IsAuthenticated] VersionHandler ["GET"; "OPTIONS"] in
  let r := Handle r "/login" [] OptionsHandler ["OPTIONS"] in
  let r := Handle r "/version" [] OptionsHandler ["OPTIONS"] in
  let r := Router_Use r (Limit General) in
  r.

Definition RegisterSystemRoutes (r : Router) : Router :=
  let systemRouter :=
    {| Prefix := "/system";
       SubUse := [Limit System];
       SubRoutes :=
         [ {| Tpl := "/services"; Methods := ["GET"]; Wrap := []; Target := ListServicesHandler |};
           {| Tpl := "/services/start"; Methods := ["POST"]; Wrap := []; Target := StartServiceHandler |};
           {| Tpl := "/services/stop"; Methods := ["POST"]; Wrap := []; Target := StopServiceHandler |};
           {| Tpl := "/services/restart"; Methods := ["POST"]; Wrap := []; Target := RestartServiceHandler |};
           {| Tpl := "/write"; Methods := ["POST"]; Wrap := []; Target := WriteFileHandler |};
           {| Tpl := "/read"; Methods := ["GET"]; Wrap := []; Target := ReadFileHandler |};
           {| Tpl := "/at"; Methods := ["POST"]; Wrap := []; Target := ScheduleTaskHandler |} ] |} in
  {| Entries := Entries r ++ [Sub systemRouter]; Use := Use r |}.

Section Serve.

Context (cfg : Config) (env : Env).

Definition endpoint (e : Endpoint) : Handler :=
    match e with
    | LoginHandler => loginHandler cfg
    | VersionHandler => versionHandler cfg
    | OptionsHandler => optionsHandler
    | ListServicesHandler => ListServices env
    | StartServiceHandler => StartService env
    | StopServiceHandler => StopService env
    | RestartServiceHandler => RestartService env
    | WriteFileHandler => WriteFile env
    | ReadFileHandler => ReadFile
    | ScheduleTaskHandler => ScheduleTask env
    end.

Definition middleware (m : Middleware) (next : Handler) : Handler :=
    match m with
    | Cors => corsHandler next
    | SecurityHeaders => securityHeadersMiddleware next
    | Limit l => limiterMiddleware l next
    | IsAuthenticated => isAuthenticated next
    end.

Definition chained (chain : list Middleware) (e : Endpoint) : Handler :=
    fold_right middleware (endpoint e) chain.

  (** [Router.ServeHTTP] *)
Definition ServeHTTP (rt : Router) : Handler := fun r =>
    match Match rt r with
    | Found chain e => chained chain e r
    | MethodMismatch => WriteHeader StatusMethodNotAllowed
    | NotFound => http_Error "404 page not found" StatusNotFound
    end.

End Serve.

Definition fresh : ResponseWriter :=
  {| Status := StatusOK; Header := ∅; Sent := NoBody; SetCookie := [] |}.

(** One request served from a server state: the state after it and the
    response. *)
Definition serve (h : Handler) (s : Server) (r : Request) : Server * ResponseWriter :=
  let st := snd (h r {| server := s; w := fresh; registry := None |}) in
  (server st, w st).

(** What the browser holds after a response: the last cookie set, the one
    it sent when none was set. *)
Definition cookie_after (before : option Values) (resp : ResponseWriter) : option Values :=
  match last (SetCookie resp) with
  | Some v => Some v
  | None => before
  end.

(** * Properties *)

(** ** The unit parser *)

(** The parser as the specification words it: the lines that have at least
    five fields, the first of which contains the suffix, each turned into a
    unit, in the order of the lines. *)
Definition eligible (unitType : string) (fields : list string) : bool :=
  (5 <=? length fields)%nat && Contains (at_index fields 0) unitType.

Definition unit_of (fields : list string) : Unit :=
  {| UNIT := at_index fields 0;
     LOAD := at_index fields 1;
     ACTIVE := at_index fields 2;
     SUB := at_index fields 3;
     DESCRIPTION := Join (skipn 4 fields) " " |}.

Definition units_of_lines (unitType : string) (lines : list string) : list Unit :=
  List.map unit_of (List.filter (eligible unitType) (List.map Fields lines)).

Fixpoint has_byte (c : ascii) (s : string) : bool :=
  match s with
  | EmptyString => false
  | String c' s' => Ascii.eqb c' c || has_byte c s'
  end.

Lemma parseUnits_body_eligible unitType units line :
  parseUnits_body unitType units line =
  if eligible unitType (Fields line) then units ++ [unit_of (Fields line)] else units.
Proof.
  unfold parseUnits_body, eligible.
  destruct (Nat.ltb_spec (length (Fields line)) 5) as [Hlt | Hge].
  - replace (5 <=? length (Fields line))%nat with false; [reflexivity |].
    symmetry. apply Nat.leb_gt. exact Hlt.
  - replace (5 <=? length (Fields line))%nat with true
      by (symmetry; apply Nat.leb_le; exact Hge).
    simpl. destruct (Contains (at_index (Fields line) 0) unitType); reflexivity.
Qed.

Lemma parseUnits_loop unitType lines : forall units,
  fold_left (parseUnits_body unitType) lines units = units ++ units_of_lines unitType lines.
Proof.
  unfold units_of_lines.
  induction lines as [| line lines IH]; intros units; simpl.
  - symmetry. apply app_nil_r.
  - rewrite IH, parseUnits_body_eligible.
    destruct (eligible unitType (Fields line)); simpl.
    + rewrite <- app_assoc. reflexivity.
    + reflexivity.
Qed.

Lemma append_cons (c : ascii) (s t : string) : String c s +:+ t = String c (s +:+ t).
Proof. reflexivity. Qed.

Lemma append_nil_l (s : string) : EmptyString +:+ s = s.
Proof. reflexivity. Qed.

Lemma append_nil_r (s : string) : s +:+ EmptyString = s.
Proof.
  induction s as [| c s IH]; [reflexivity |].
  now rewrite append_cons, IH.
Qed.

Lemma append_assoc (a b c : string) : (a +:+ b) +:+ c = a +:+ (b +:+ c).
Proof.
  induction a as [| x a IH]; [reflexivity |].
  now rewrite !append_cons, IH.
Qed.

(** Splitting runs through a piece that holds no separator. *)
Lemma Split_from_piece sep piece : forall rest cur,
  has_byte sep piece = false ->
  Split_from (piece +:+ rest) sep cur = Split_from rest sep (cur +:+ piece).
Proof.
  induction piece as [| c piece IH]; intros rest cur Hfree.
  - now rewrite append_nil_l, append_nil_r.
  - cbn [has_byte] in Hfree. apply orb_false_elim in Hfree as [Hc Hp].
    rewrite append_cons. cbn [Split_from]. rewrite Hc, IH by exact Hp.
    now rewrite append_assoc.
Qed.

Lemma Split_Join sep : forall lines,
  lines <> [] ->
  Forall (fun l => has_byte sep l = false) lines ->
  Split (Join lines (String sep EmptyString)) sep = lines.
Proof.
  unfold Split, Join.
  induction lines as [| l lines IH]; intros Hne Hfree; [congruence |].
  inversion Hfree as [| ? ? Hl Hrest]; subst.
  destruct lines as [| l' lines'].
  - cbn [String.concat]. rewrite <- (append_nil_r l) at 1.
    rewrite Split_from_piece by exact Hl. reflexivity.
  - change (String.concat (String sep EmptyString) (l :: l' :: lines'))
      with (l +:+ String sep (String.concat (String sep EmptyString) (l' :: lines'))).
    rewrite Split_from_piece by exact Hl.
    cbn [Split_from]. rewrite Ascii.eqb_refl, append_nil_l.
    f_equal. apply IH; [congruence | exact Hrest].
Qed.

Lemma parseUnits_units (data unitType : string) :
  parseUnits data unitType = (units_of_lines unitType (Split data nl), None).
Proof. unfold parseUnits. now rewrite parseUnits_loop. Qed.

(** C4. [parseUnits] never fails and returns, in the order of the lines of
    the listing, one unit for exactly those lines that have at least five
    whitespace-separated fields the first of which contains the suffix: name,
    load, active and sub are the first four fields, the description is the
    other fields joined by single spaces.  So a listing made of a header line
    that is not eligible and of N eligible lines yields the N units of these
    lines, and a line whose first field is foo.socket adds nothing to a
    .service parse. *)
Theorem parseUnits_correct (unitType : string) :
  (forall data,
      parseUnits data unitType = (units_of_lines unitType (Split data nl), None))
  /\ (forall header lines,
         Forall (fun l => has_byte nl l = false) (header :: lines) ->
         eligible unitType (Fields header) = false ->
         Forall (fun l => eligible unitType (Fields l) = true) lines ->
         let units := fst (parseUnits (Join (header :: lines) (String nl EmptyString)) unitType) in
         units = List.map (fun l => unit_of (Fields l)) lines
         /\ length units = length lines)
  /\ (forall units line,
         at_index (Fields line) 0 = "foo.socket" ->
         parseUnits_body ".service" units line = units).
Proof.
  pose proof (fun data => parseUnits_units data unitType) as Hall.
  split; [exact Hall |]. split.
  - intros header lines Hfree Hhead Hlines units. subst units.
    rewrite Hall, Split_Join by (congruence || exact Hfree).
    cbn [fst]. unfold units_of_lines. cbn [List.map List.filter]. rewrite Hhead.
    assert (Heq : List.map unit_of (List.filter (eligible unitType) (List.map Fields lines))
                  = List.map (fun l => unit_of (Fields l)) lines).
    { clear Hfree. induction Hlines as [| l ls Hl _ IH]; cbn [List.map List.filter].
      - reflexivity.
      - rewrite Hl. cbn [List.map]. now rewrite IH. }
    rewrite Heq. split; [reflexivity | apply length_map].
  - intros units line Hfirst.
    rewrite parseUnits_body_eligible. unfold eligible. rewrite Hfirst.
    replace (Contains "foo.socket" ".service") with false by reflexivity.
    now rewrite andb_false_r.
Qed.

(** ** The command handlers *)

Arguments succeeded : simpl never.
Arguments stdout_of : simpl never.
Arguments combined_of : simpl never.
Arguments parseUnits : simpl never.

(** The request parameters a handler of package routes checks before it does
    anything else; the handlers of [main.go] read none. *)
Definition required (e : Endpoint) : list string :=
  match e with
  | StartServiceHandler | StopServiceHandler | RestartServiceHandler => ["target"]
  | WriteFileHandler => ["filename"; "filepath"; "filecontent"]
  | ReadFileHandler => ["filename"; "filepath"]
  | ScheduleTaskHandler => ["time"; "command"]
  | _ => []
  end.

Definition listServicesCommand : list string :=
  ["sh"; "-c"; "systemctl --user list-units --type=service --all"].
Definition listSocketsCommand : list string :=
  ["sh"; "-c"; "systemctl --user list-units --type=socket --all"].

Ltac case_params :=
  repeat match goal with
         | |- context [String.eqb (Get ?q ?k) ?e] => destruct (String.eqb (Get q k) e)
         end.

(** C3. A command handler that finds one of its required parameters absent
    or empty answers 400 with a plain-text message and leaves the server as
    it was: nothing is added to the log of effects (no process, no file read
    or written, no task scheduled), no file changes, no counter moves. *)
Theorem missing_parameter_bad_request (cfg : Config) (env : Env) (e : Endpoint)
        (s : Server) (r : Request) (p : string) :
  In p (required e) ->
  Get (Query r) p = EmptyString ->
  fst (serve (endpoint cfg env e) s r) = s
  /\ Status (snd (serve (endpoint cfg env e) s r)) = StatusBadRequest
  /\ (exists msg, Sent (snd (serve (endpoint cfg env e) s r)) = Text msg)
  /\ SetCookie (snd (serve (endpoint cfg env e) s r)) = [].
Proof.
  intros Hin Hget.
  destruct e; cbn [required] in Hin; cbn [In] in Hin;
    repeat match goal with
           | H : _ \/ _ |- _ => destruct H as [H | H]
           | H : False |- _ => destruct H
           end; subst p;
    unfold serve, endpoint, StartService, StopService, RestartService, service_action,
      WriteFile, ReadFile, ScheduleTask;
    rewrite Hget; case_params; cbn; destruct s; eauto 10.
Qed.

(** C5. The list-units handler answers 200 with both sequences, under the
    keys services and sockets, exactly when both listing commands succeed;
    when either fails the answer is 500 with a plain-text message and no
    sequence at all.  The second command is not run when the first fails. *)
Theorem ListServices_all_or_nothing (env : Env) (s : Server) (r : Request) :
  let p1 := run env listServicesCommand in
  let p2 := run env listSocketsCommand in
  let resp := snd (serve (ListServices env) s r) in
  let s' := fst (serve (ListServices env) s r) in
  Status resp
  = (if succeeded p1 && succeeded p2 then StatusOK else StatusInternalServerError)
  /\ Sent resp
     = (if succeeded p1 then
          if succeeded p2 then
            JSON (Json.Object
                    [("services", Units_json (units_of_lines ".service" (Split (stdout_of p1) nl)));
                     ("sockets", Units_json (units_of_lines ".socket" (Split (stdout_of p2) nl)))])
          else Text ("Error fetching sockets" +:+ String nl EmptyString)
        else Text ("Error fetching services" +:+ String nl EmptyString))
  /\ effects s'
     = effects s ++ Spawn listServicesCommand
                 :: (if succeeded p1 then [Spawn listSocketsCommand] else [])
  /\ files s' = files s.
Proof.
  unfold serve, ListServices, executeCommand, exec_Output, listServicesCommand,
    listSocketsCommand.
  cbn.
  destruct (succeeded (run env _)) eqn:H1; cbn.
  - rewrite parseUnits_units. cbn.
    destruct (succeeded (run env ["sh"; "-c"; "systemctl --user list-units --type=socket --all"]))
      eqn:H2; cbn.
    + rewrite parseUnits_units. cbn.
      rewrite <- app_assoc. auto.
    + rewrite <- app_assoc. auto.
  - auto.
Qed.


(** C8, as the code has it.  [executeCommand] runs the command line through
    [sh -c]; when the process starts and exits with status 0 it returns what
    the process wrote on its standard output, and nothing of what it wrote on
    its standard error; otherwise it returns the empty string and an error. *)
Theorem executeCommand_stdout (env : Env) (command : string) (st : State) :
  let p := run env ["sh"; "-c"; command] in
  fst (executeCommand env command st)
  = (if succeeded p then (stdout_of p, None) else (EmptyString, Some "exit status"))
  /\ effects (server (snd (executeCommand env command st)))
     = effects (server st) ++ [Spawn ["sh"; "-c"; command]].
Proof.
  unfold executeCommand, exec_Output. cbn.
  destruct (succeeded (run env _)); cbn; auto.
Qed.

(** A process that exits with status 0 after writing on both streams. *)
Definition chatty : Env :=
  {| run := fun _ => {| started := true; exit_status := 0;
                        written := [(Stdout, "out"); (Stderr, "err")] |};
     writable := fun _ => true |}.

Definition idle : Server :=
  {| files := ∅; effects := []; generalStore := ∅; loginStore := ∅; systemStore := ∅ |}.

Definition start : State := {| server := idle; w := fresh; registry := None |}.

(** C8 as stated fails: the text returned on success is not the combined
    output of the command. *)
Lemma executeCommand_not_combined :
  ~ (forall (env : Env) (command : string) (st : State),
        succeeded (run env ["sh"; "-c"; command]) = true ->
        fst (executeCommand env command st)
        = (combined_of (run env ["sh"; "-c"; command]), None)).
Proof.
  intros H. specialize (H chatty "ls" start eq_refl). vm_compute in H. discriminate.
Qed.

(** ** Login and sessions *)

(** The answer that [http.Error] writes on a response not yet written to. *)
Definition plain_error (msg : string) (code : nat) : ResponseWriter :=
  {| Status := code;
     Header := <["X-Content-Type-Options" := "nosniff"]>
                 (<["Content-Type" := "text/plain; charset=utf-8"]> ∅);
     Sent := Text (msg +:+ String nl EmptyString);
     SetCookie := [] |}.

Definition no_credentials : Credentials :=
  {| Username := EmptyString; Password := EmptyString |}.

(** The JSON object [{"username": u, "password": p}]. *)
Definition credentials_json (u p : string) : Json.value :=
  Json.Object [("username", Json.Str u); ("password", Json.Str p)].

Lemma Decode_credentials_json u p :
  JsonDecode.Decode (Some (credentials_json u p)) no_credentials
  = ({| Username := u; Password := p |}, None).
Proof. reflexivity. Qed.

(** C2. A login whose body is the JSON object of a username and a password
    that are not the configured pair is answered 401; no session is saved
    (no cookie is set, so the browser keeps the session it had) and the server
    is as it was. *)
Theorem login_wrong_credentials (cfg : Config) (s : Server) (r : Request) (u p : string) :
  Body r = Some (credentials_json u p) ->
  (u, p) <> (USERNAME cfg, PASSWORD cfg) ->
  serve (loginHandler cfg) s r
  = (s, plain_error "Invalid username or password" StatusUnauthorized)
  /\ cookie_after (Cookie r) (snd (serve (loginHandler cfg) s r)) = Cookie r.
Proof.
  intros Hbody Hne.
  assert (Hrun : serve (loginHandler cfg) s r
                 = (s, plain_error "Invalid username or password" StatusUnauthorized)).
  { unfold serve, loginHandler. rewrite Hbody.
    change (JsonDecode.Decode (Some (credentials_json u p))
              {| Username := EmptyString; Password := EmptyString |})
      with ({| Username := u; Password := p |}, @None string).
    cbn [Username Password].
    destruct (String.eqb_spec u (USERNAME cfg)) as [Hu | Hu];
      destruct (String.eqb_spec p (PASSWORD cfg)) as [Hp | Hp];
      try (exfalso; apply Hne; congruence);
      cbn; destruct s; reflexivity. }
  split; [exact Hrun |]. rewrite Hrun. reflexivity.
Qed.

(** Whether the decoder accepts a body. *)
Definition decodes (body : option Json.value) : bool :=
  match snd (JsonDecode.Decode body no_credentials) with
  | None => true
  | Some _ => false
  end.

(** A member is acceptable unless its key names a field of the struct and
    its value is neither a string nor [null]. *)
Definition member_ok (kv : string * Json.value) : bool :=
  if JsonDecode.names (fst kv) "username" || JsonDecode.names (fst kv) "password" then
    match snd kv with
    | Json.Str _ | Json.Null => true
    | _ => false
    end
  else true.

Lemma members_error ms : forall c err,
  snd (JsonDecode.members ms c err) = None <-> err = None /\ forallb member_ok ms = true.
Proof.
  induction ms as [| [k v] ms IH]; intros c err; cbn [JsonDecode.members forallb].
  - cbn. intuition.
  - unfold member_ok at 1. cbn [fst snd].
    destruct (JsonDecode.names k "username"); [| destruct (JsonDecode.names k "password")];
      cbn [orb].
    + destruct v; cbn [JsonDecode.into_string]; rewrite IH;
        destruct err; cbn; intuition congruence.
    + destruct v; cbn [JsonDecode.into_string]; rewrite IH;
        destruct err; cbn; intuition congruence.
    + rewrite IH. intuition.
Qed.

(** The bodies the decoder accepts: [null], and the objects all of whose
    members are acceptable, the empty object among them. *)
Lemma decodes_spec body :
  decodes body
  = match body with
    | Some Json.Null => true
    | Some (Json.Object ms) => forallb member_ok ms
    | _ => false
    end.
Proof.
  unfold decodes. destruct body as [[| | | | |ms] |]; try reflexivity.
  cbn [JsonDecode.Decode].
  destruct (snd (JsonDecode.members ms no_credentials None)) eqn:E.
  - destruct (forallb member_ok ms) eqn:F; [| reflexivity].
    assert (H : snd (JsonDecode.members ms no_credentials None) = None)
      by (apply members_error; auto).
    congruence.
  - apply members_error in E as [_ ->]. reflexivity.
Qed.

(** Members none of which names a field leave the credentials as they are. *)
Lemma members_unnamed ms : forall c err,
  Forall (fun kv => JsonDecode.names (fst kv) "username" = false
                    /\ JsonDecode.names (fst kv) "password" = false) ms ->
  JsonDecode.members ms c err = (c, err).
Proof.
  induction ms as [| [k v] ms IH]; intros c err Hall; [reflexivity |].
  inversion Hall as [| ? ? [Hu Hp] Hrest]; subst. cbn [fst] in Hu, Hp.
  cbn [JsonDecode.members]. rewrite Hu, Hp. now apply IH.
Qed.

(** The claim C10 in the words of the specification: the body is a JSON
    object with a member username and a member password. *)
Definition credentials_object (body : option Json.value) : bool :=
  match body with
  | Some (Json.Object ms) =>
    existsb (fun kv => String.eqb (fst kv) "username") ms
    && existsb (fun kv => String.eqb (fst kv) "password") ms
  | _ => false
  end.

Definition admin : Config :=
  {| USERNAME := "admin"; PASSWORD := "secret"; VERSION := "1.0" |}.

Definition post_login (body : option Json.value) : Request :=
  {| Method := "POST"; Path := "/login"; Query := ∅; Body := body; Cookie := None;
     RemoteAddr := "203.0.113.7"; At := 1000; Preflight := false |}.

(** C10 as stated fails: the empty object is not an object with username
    and password members, yet it decodes, the empty credentials are compared
    and the answer is 401. *)
Lemma login_empty_object_unauthorized :
  init_ok admin = true
  /\ credentials_object (Body (post_login (Some (Json.Object [])))) = false
  /\ Status (snd (serve (loginHandler admin) idle (post_login (Some (Json.Object [])))))
     = StatusUnauthorized
  /\ ~ (forall (cfg : Config) (s : Server) (r : Request),
           init_ok cfg = true ->
           credentials_object (Body r) = false ->
           Status (snd (serve (loginHandler cfg) s r)) = StatusBadRequest).
Proof.
  split; [reflexivity |]. split; [reflexivity |]. split; [reflexivity |].
  intros H.
  specialize (H admin idle (post_login (Some (Json.Object []))) eq_refl eq_refl).
  vm_compute in H. discriminate.
Qed.

(** C10, as the code has it.  When the decoder rejects the body (no JSON
    value can be read, the value is neither an object nor [null], or a member
    that names username or password is neither a string nor [null]) the
    handler answers 400, whatever the configured credentials, sets no cookie
    and leaves the server as it was.  A body that decodes without naming
    either field, the empty object or [null] for instance, is compared as the
    empty credentials and answered 401. *)
Theorem login_undecodable (cfg : Config) (s : Server) (r : Request) :
  (decodes (Body r) = false ->
   serve (loginHandler cfg) s r = (s, plain_error "Invalid request payload" StatusBadRequest))
  /\ (forall ms,
         Body r = Some Json.Null \/ Body r = Some (Json.Object ms) ->
         Forall (fun kv => JsonDecode.names (fst kv) "username" = false
                           /\ JsonDecode.names (fst kv) "password" = false) ms ->
         init_ok cfg = true ->
         serve (loginHandler cfg) s r
         = (s, plain_error "Invalid username or password" StatusUnauthorized)).
Proof.
  split.
  - unfold decodes, serve, loginHandler, no_credentials.
    destruct (JsonDecode.Decode (Body r) _) as [creds [e |]]; cbn [snd].
    + intros _. cbn. destruct s; reflexivity.
    + discriminate.
  - intros ms Hbody Hnone Hinit.
    assert (Hdec : JsonDecode.Decode (Body r) no_credentials = (no_credentials, None)).
    { destruct Hbody as [-> | ->]; [reflexivity |].
      cbn [JsonDecode.Decode]. now apply members_unnamed. }
    unfold serve, loginHandler. fold no_credentials. rewrite Hdec.
    cbn [Username Password no_credentials].
    unfold init_ok in Hinit. apply negb_true_iff in Hinit.
    apply orb_false_elim in Hinit as [Hinit _].
    apply orb_false_elim in Hinit as [Huser _].
    rewrite String.eqb_sym, Huser. cbn. destruct s; reflexivity.
Qed.

(** ** The identity a session carries *)

Arguments Limiter.Get : simpl never.

Ltac run_monad :=
  unfold bind, ret, http_Error, Header_Set, WriteHeader, Write, Encode, with_w,
    with_server, with_registry, get_server, log_effect; cbn.

(** *** What the handlers leave true of the response

    A property of the response that survives the setting of a header and of
    the body, and the setting of the status to an allowed code, survives
    every command handler, [versionHandler] and [optionsHandler]. *)

Section Respects.

Variable I : ResponseWriter -> Prop.
Variable allowed : nat -> Prop.

Hypothesis I_header : forall r k v,
      I r -> I {| Status := Status r; Header := <[k := v]> (Header r);
                  Sent := Sent r; SetCookie := SetCookie r |}.
Hypothesis I_status : forall r code,
      allowed code ->
      I r -> I {| Status := code; Header := Header r; Sent := Sent r;
                  SetCookie := SetCookie r |}.
Hypothesis I_sent : forall r p,
      I r -> I {| Status := Status r; Header := Header r; Sent := p;
                  SetCookie := SetCookie r |}.

Definition respects {A} (m : M A) : Prop :=
    forall st, I (w st) -> I (w (snd (m st))).

Lemma respects_ret {A} (a : A) : respects (ret a).
  Proof. intros st H. exact H. Qed.

Lemma respects_bind {A B} (m : M A) (k : A -> M B) :
    respects m -> (forall a, respects (k a)) -> respects (bind m k).
  Proof.
    intros Hm Hk st H. unfold bind.
    specialize (Hm st H). destruct (m st) as [a st']. now apply Hk.
  Qed.

Lemma respects_with_server f : respects (with_server f).
  Proof. intros st H. exact H. Qed.

Lemma respects_get_server : respects get_server.
  Proof. intros st H. exact H. Qed.

Lemma respects_log_effect e : respects (log_effect e).
  Proof. apply respects_with_server. Qed.

Lemma respects_Header_Set k v : respects (Header_Set k v).
  Proof. intros st H. now apply I_header. Qed.

Lemma respects_WriteHeader code : allowed code -> respects (WriteHeader code).
  Proof. intros Hc st H. now apply I_status. Qed.

Lemma respects_Write p : respects (Write p).
  Proof. intros st H. now apply I_sent. Qed.

Lemma respects_http_Error msg code : allowed code -> respects (http_Error msg code).
  Proof.
    intros Hc. unfold http_Error.
    repeat (apply respects_bind; [| intros _]);
      auto using respects_Header_Set, respects_WriteHeader, respects_Write.
  Qed.

Ltac respect :=
    repeat first
           [ apply respects_ret
           | apply respects_with_server
           | apply respects_get_server
           | apply respects_log_effect
           | apply respects_Header_Set
           | apply respects_Write
           | apply respects_WriteHeader; assumption
           | apply respects_http_Error; assumption
           | apply respects_bind; [| intros ?]
           | match goal with
             | |- respects (if ?b then _ else _) => destruct b
             | |- respects (match ?x with _ => _ end) => destruct x
             end ].

Lemma respects_command (env : Env) (e : Endpoint) (r : Request) :
    allowed StatusBadRequest ->
    allowed StatusInternalServerError ->
    match e with
    | ListServicesHandler => respects (ListServices env r)
    | StartServiceHandler => respects (StartService env r)
    | StopServiceHandler => respects (StopService env r)
    | RestartServiceHandler => respects (RestartService env r)
    | WriteFileHandler => respects (WriteFile env r)
    | ReadFileHandler => respects (ReadFile r)
    | ScheduleTaskHandler => respects (ScheduleTask env r)
    | _ => True
    end.
  Proof.
    intros H400 H500.
    destruct e; try exact Logic.I;
      unfold ListServices, StartService, StopService, RestartService, service_action,
        WriteFile, ReadFile, ScheduleTask, executeCommand, exec_Output, exec_Run,
        os_WriteFile, os_ReadFile, Encode;
      respect.
  Qed.

Lemma respects_version (cfg : Config) (r : Request) : respects (versionHandler cfg r).
  Proof. unfold versionHandler, Encode. respect. Qed.

Lemma respects_options (r : Request) :
    allowed StatusNoContent -> respects (optionsHandler r).
  Proof. intros H204. unfold optionsHandler. respect. Qed.

End Respects.

Section Sessions.

Context (cfg : Config) (env : Env).

  (** A session carries no identity, or the configured user name. *)
Definition session_ok (v : Values) : Prop :=
    v !! "user" = None \/ v !! "user" = Some (USERNAME cfg).

Definition cookies_ok (st : State) : Prop := Forall session_ok (SetCookie (w st)).

Definition keeps (h : Handler) : Prop :=
    forall r st, cookies_ok st -> cookies_ok (snd (h r st)).

Lemma loginHandler_keeps : keeps (loginHandler cfg).
  Proof.
    intros r st Hok. unfold cookies_ok in *. unfold loginHandler.
    destruct (JsonDecode.Decode _ _) as [creds [e |]]; [exact Hok |].
    destruct (_ && _); [| exact Hok].
    unfold store_Get, session_clear, session_put, session_Save. run_monad.
    destruct (registry st); cbn;
      rewrite <- app_assoc; apply Forall_app; (split; [exact Hok |]);
      repeat constructor; right; apply lookup_insert_eq.
  Qed.

Lemma endpoint_keeps (e : Endpoint) : keeps (endpoint cfg env e).
  Proof.
    destruct e; [apply loginHandler_keeps | ..];
      intros r st Hok; unfold cookies_ok in *; unfold endpoint;
      [ apply (respects_version (fun x => Forall session_ok (SetCookie x)))
      | apply (respects_options (fun x => Forall session_ok (SetCookie x)) (fun _ => True))
      | apply (respects_command (fun x => Forall session_ok (SetCookie x)) (fun _ => True)
                 ltac:(auto) ltac:(auto) ltac:(auto) env ListServicesHandler)
      | apply (respects_command (fun x => Forall session_ok (SetCookie x)) (fun _ => True)
                 ltac:(auto) ltac:(auto) ltac:(auto) env StartServiceHandler)
      | apply (respects_command (fun x => Forall session_ok (SetCookie x)) (fun _ => True)
                 ltac:(auto) ltac:(auto) ltac:(auto) env StopServiceHandler)
      | apply (respects_command (fun x => Forall session_ok (SetCookie x)) (fun _ => True)
                 ltac:(auto) ltac:(auto) ltac:(auto) env RestartServiceHandler)
      | apply (respects_command (fun x => Forall session_ok (SetCookie x)) (fun _ => True)
                 ltac:(auto) ltac:(auto) ltac:(auto) env WriteFileHandler)
      | apply (respects_command (fun x => Forall session_ok (SetCookie x)) (fun _ => True)
                 ltac:(auto) ltac:(auto) ltac:(auto) env ReadFileHandler)
      | apply (respects_command (fun x => Forall session_ok (SetCookie x)) (fun _ => True)
                 ltac:(auto) ltac:(auto) ltac:(auto) env ScheduleTaskHandler) ];
      auto.
  Qed.

Lemma middleware_keeps (m : Middleware) (next : Handler) :
    keeps next -> keeps (middleware m next).
  Proof.
    intros Hnext r st Hok.
    destruct m as [| | l |]; unfold middleware.
    - unfold corsHandler. destruct (_ && _); [exact Hok | now apply Hnext].
    - unfold securityHeadersMiddleware. run_monad. apply Hnext. exact Hok.
    - unfold limiterMiddleware. run_monad.
      destruct (Limiter.Get _ _ _ _) as [[|] c]; cbn; [exact Hok | now apply Hnext].
    - unfold isAuthenticated, store_Get. run_monad.
      destruct (registry st) as [v |]; cbn.
      + destruct (v !! "user"); cbn; [now apply Hnext | exact Hok].
      + destruct (match Cookie r with Some c => c | None => ∅ end !! "user"); cbn;
          [now apply Hnext | exact Hok].
  Qed.

Lemma chained_keeps (chain : list Middleware) (e : Endpoint) :
    keeps (chained cfg env chain e).
  Proof.
    induction chain as [| m chain IH]; cbn [chained fold_right].
    - apply endpoint_keeps.
    - apply middleware_keeps. exact IH.
  Qed.

Lemma ServeHTTP_keeps (rt : Router) : keeps (ServeHTTP cfg env rt).
  Proof.
    intros r st Hok. unfold ServeHTTP.
    destruct (Match rt r); [now apply chained_keeps | exact Hok | exact Hok].
  Qed.

  (** The sessions a client can present: the cookie store signs its cookies,
      so a request carries no session or one that the server set in answer to
      an earlier request. *)
Inductive issued (rt : Router) : Values -> Prop :=
  | issued_first s r v :
      Cookie r = None ->
      In v (SetCookie (snd (serve (ServeHTTP cfg env rt) s r))) ->
      issued rt v
  | issued_next s r v0 v :
      Cookie r = Some v0 ->
      issued rt v0 ->
      In v (SetCookie (snd (serve (ServeHTTP cfg env rt) s r))) ->
      issued rt v.

  (** The state in which the handler behind the gate starts, or the gate
      answers: the session of the request is in the registry. *)
Definition with_session (st : State) (v : Values) : State :=
    {| server := server st; w := w st; registry := Some v |}.

  (** C9. Whatever the router and the request, every session the server
      saves carries no identity or exactly the configured user name; so does
      every session a client can present.  The gate therefore lets a request
      through exactly when its session carries the configured user name, and
      answers 401 otherwise. *)
Theorem session_identity (rt : Router) :
    (forall s r, Forall session_ok (SetCookie (snd (serve (ServeHTTP cfg env rt) s r))))
    /\ (forall v, issued rt v -> forall u, v !! "user" = Some u -> u = USERNAME cfg)
    /\ (forall v next r st,
           issued rt v -> Cookie r = Some v -> registry st = None ->
           (v !! "user" = Some (USERNAME cfg) ->
            isAuthenticated next r st = next r (with_session st v))
           /\ (v !! "user" <> Some (USERNAME cfg) ->
               isAuthenticated next r st
               = http_Error "Unauthorized" StatusUnauthorized (with_session st v)))
    /\ (forall next r st,
           Cookie r = None -> registry st = None ->
           isAuthenticated next r st
           = http_Error "Unauthorized" StatusUnauthorized (with_session st ∅)).
  Proof.
    assert (Hsaved : forall s r,
               Forall session_ok (SetCookie (snd (serve (ServeHTTP cfg env rt) s r)))).
    { intros s r. unfold serve. cbn [snd].
      apply (ServeHTTP_keeps rt r {| server := s; w := fresh; registry := None |}).
      constructor. }
    assert (Hissued : forall v, issued rt v -> session_ok v).
    { intros v Hv.
      destruct Hv as [s r v _ Hin | s r v0 v _ _ Hin];
        exact (proj1 (List.Forall_forall _ _) (Hsaved s r) v Hin). }
    split; [exact Hsaved |]. split; [| split].
    - intros v Hv u Hu. destruct (Hissued v Hv) as [Hn | Hs]; congruence.
    - intros v next r st Hv Hc Hreg. unfold isAuthenticated, store_Get, bind, with_session.
      rewrite Hreg, Hc. split.
      + intros Hu. rewrite Hu. reflexivity.
      + intros Hu. destruct (Hissued v Hv) as [Hn | Hs]; [| contradiction].
        rewrite Hn. reflexivity.
    - intros next r st Hc Hreg. unfold isAuthenticated, store_Get, bind, with_session.
      rewrite Hreg, Hc. rewrite lookup_empty. reflexivity.
  Qed.

End Sessions.

(** ** The composed router *)

Arguments String.prefix : simpl never.
Arguments String.append : simpl nomatch.

(** The routes under /system, by method and path. *)
Definition system_table : list (string * string * Endpoint) :=
  [ ("GET", "/system/services", ListServicesHandler);
    ("POST", "/system/services/start", StartServiceHandler);
    ("POST", "/system/services/stop", StopServiceHandler);
    ("POST", "/system/services/restart", RestartServiceHandler);
    ("POST", "/system/write", WriteFileHandler);
    ("GET", "/system/read", ReadFileHandler);
    ("POST", "/system/at", ScheduleTaskHandler) ].

Definition system_route (method path : string) : option Endpoint :=
  option_map snd
    (find (fun x => String.eqb method (fst (fst x)) && String.eqb path (snd (fst x)))
          system_table).

Definition with_cookie (r : Request) (c : option Values) : Request :=
  {| Method := Method r; Path := Path r; Query := Query r; Body := Body r; Cookie := c;
     RemoteAddr := RemoteAddr r; At := At r; Preflight := Preflight r |}.

(** The response once [securityHeadersMiddleware] has run. *)
Definition secured : ResponseWriter :=
  {| Status := StatusOK;
     Header := <["X-XSS-Protection" := "1; mode=block"]>
                 (<["X-Frame-Options" := "DENY"]>
                    (<["X-Content-Type-Options" := "nosniff"]>
                       (<["Strict-Transport-Security" := "max-age=63072000; includeSubDomains; preload"]>
                          (<["Content-Security-Policy" := "default-src 'self'"]> ∅))));
     Sent := NoBody;
     SetCookie := [] |}.

(** The answer of a limiter that is over its limit. *)
Definition rejected : ResponseWriter :=
  w (snd (http_Error "Limit exceeded" StatusTooManyRequests
            {| server := idle; w := secured; registry := None |})).

(** A request to a route of the table, served by the router of [main] once
    [RegisterSystemRoutes] has been applied to it: the two limiters, then the
    handler. *)
Definition through_limiters (cfg : Config) (env : Env) (e : Endpoint) (s : Server)
           (r : Request) : Server * ResponseWriter :=
  let g := Limiter.Get (rate_of General) (generalStore s) (RemoteAddr r) (At r) in
  let s1 := set_store General (snd g) s in
  if fst g then (s1, rejected)
  else
    let y := Limiter.Get (rate_of System) (systemStore s) (RemoteAddr r) (At r) in
    let s2 := set_store System (snd y) s1 in
    if fst y then (s2, rejected)
    else
      let st := snd (endpoint cfg env e r {| server := s2; w := secured; registry := None |}) in
      (server st, w st).

Ltac case_strings H :=
  repeat match type of H with
         | context [String.eqb ?a ?b] =>
           destruct (String.eqb_spec a b); subst; cbn in H
         end.

Lemma system_route_cases method path e :
  system_route method path = Some e ->
  In (method, path, e) system_table.
Proof.
  unfold system_route. intros H. cbn in H. case_strings H; try discriminate;
    inversion H; subst; cbn; auto 10.
Qed.

Lemma match_entries_use use es r : forall mm chain e,
  match_entries use es r mm = Found chain e -> exists rest, chain = use ++ rest.
Proof.
  induction es as [| [rt | sub] es IH]; intros mm chain e H; cbn [match_entries] in H.
  - destruct mm; discriminate.
  - destruct (match_routes _ _ _ _) as [[rt' |] mm'].
    + inversion H; subst. eauto.
    + eapply IH; eauto.
  - destruct (String.prefix _ _).
    + destruct (match_routes _ _ _ _) as [[rt' |] mm'].
      * inversion H; subst. eauto.
      * eapply IH; eauto.
    + eapply IH; eauto.
Qed.

Lemma gate_only_on_version r chain e :
  Match (RegisterSystemRoutes main) r = Found chain e ->
  (In IsAuthenticated chain <-> Path r = "/version").
Proof.
  destruct r as [m p q b c a t pf]. unfold Match. cbn. intros H.
  repeat match type of H with
         | context [String.eqb ?a ?b] =>
           destruct (String.eqb_spec a b); subst; cbn in H
         | context [String.prefix ?a ?b] =>
           destruct (String.prefix a b); cbn in H
         end;
    try discriminate; inversion H; subst; cbn;
    (split; [intros Hin; repeat destruct Hin as [Hin | Hin]; congruence || tauto
            | intros Hp; try discriminate; try congruence; tauto]).
Qed.

Lemma command_never_unauthorized (cfg : Config) (env : Env) (method path : string)
      (e : Endpoint) (r : Request) (st : State) :
  In (method, path, e) system_table ->
  Status (w st) <> StatusUnauthorized ->
  Status (w (snd (endpoint cfg env e r st))) <> StatusUnauthorized.
Proof.
  intros Hin Hst.
  pose proof (respects_command (fun x => Status x <> StatusUnauthorized)
                (fun code => code <> StatusUnauthorized)
                ltac:(auto) ltac:(auto) ltac:(auto) env e r
                ltac:(discriminate) ltac:(discriminate)) as H.
  cbn in Hin.
  repeat destruct Hin as [Hin | Hin]; try contradiction; inversion Hin; subst;
    cbn [endpoint]; now apply H.
Qed.

Lemma system_match (r : Request) (e : Endpoint) :
  In (Method r, Path r, e) system_table ->
  Match main r = NotFound
  /\ Match (RegisterSystemRoutes main) r
     = Found [Cors; SecurityHeaders; Limit General; Limit System] e
  /\ String.eqb (Method r) "OPTIONS" = false.
Proof.
  destruct r as [m p q b c a t pf]. cbn. intros Hin.
  repeat destruct Hin as [Hin | Hin]; try contradiction;
    inversion Hin; subst; repeat split; reflexivity.
Qed.

Lemma system_serve (cfg : Config) (env : Env) (r : Request) (e : Endpoint) (s : Server) :
  In (Method r, Path r, e) system_table ->
  serve (ServeHTTP cfg env (RegisterSystemRoutes main)) s r
  = through_limiters cfg env e s r.
Proof.
  intros Hin. destruct (system_match r e Hin) as (_ & Hmatch & Hopt).
  unfold serve, ServeHTTP. rewrite Hmatch.
  cbn [chained fold_right middleware]. unfold corsHandler. rewrite Hopt. cbn [andb].
  unfold securityHeadersMiddleware, limiterMiddleware, through_limiters. run_monad.
  destruct (Limiter.Get _ (generalStore s) _ _) as [[|] c1]; cbn; [reflexivity |].
  destruct (Limiter.Get _ (systemStore s) _ _) as [[|] c2]; cbn; reflexivity.
Qed.

Lemma command_ignores_cookie (cfg : Config) (env : Env) (method path : string)
      (e : Endpoint) (r : Request) (c : option Values) (st : State) :
  In (method, path, e) system_table ->
  endpoint cfg env e (with_cookie r c) st = endpoint cfg env e r st.
Proof.
  cbn. intros Hin.
  repeat destruct Hin as [Hin | Hin]; try contradiction;
    inversion Hin; subst; reflexivity.
Qed.

Definition get_services : Request :=
  {| Method := "GET"; Path := "/system/services"; Query := ∅; Body := None;
     Cookie := None; RemoteAddr := "203.0.113.7"; At := 1000; Preflight := false |}.

(** C1 as stated fails on the router that [main] composes: [main] mounts
    /login and /version only, [RegisterSystemRoutes] is not among its calls,
    and a request to a system route finds no route. *)
Lemma system_routes_not_mounted :
  system_route (Method get_services) (Path get_services) = Some ListServicesHandler
  /\ Cookie get_services = None
  /\ Match main get_services = NotFound
  /\ Status (snd (serve (ServeHTTP admin chatty main) idle get_services)) = StatusNotFound
  /\ ~ (forall r e,
           system_route (Method r) (Path r) = Some e ->
           Cookie r = None ->
           exists chain, Match main r = Found chain e /\ ~ In IsAuthenticated chain).
Proof.
  repeat (split; [reflexivity |]).
  intros H. destruct (H get_services ListServicesHandler eq_refl eq_refl) as [chain [Hm _]].
  vm_compute in Hm. discriminate.
Qed.

(** C1, as the code has it.  Once [RegisterSystemRoutes] has been applied
    to the router of [main], a request to a system route under its method is
    matched to its handler behind CORS, the security headers and the general
    and system limiters, with no session gate: it is served the same whatever
    session it carries, is never answered 401, and is answered by its handler
    unless one of the two limiters is over its limit, which answers 429.  On
    the router as [main] leaves it the request matches no route.  Of all the
    routes only /version is behind the gate. *)
Theorem system_routes_ungated (cfg : Config) (env : Env) (r : Request) (e : Endpoint) :
  system_route (Method r) (Path r) = Some e ->
  Match main r = NotFound
  /\ Match (RegisterSystemRoutes main) r
     = Found [Cors; SecurityHeaders; Limit General; Limit System] e
  /\ (forall s,
         serve (ServeHTTP cfg env (RegisterSystemRoutes main)) s r
         = through_limiters cfg env e s r)
  /\ (forall s c,
         serve (ServeHTTP cfg env (RegisterSystemRoutes main)) s (with_cookie r c)
         = serve (ServeHTTP cfg env (RegisterSystemRoutes main)) s r)
  /\ (forall s,
         Status (snd (serve (ServeHTTP cfg env (RegisterSystemRoutes main)) s r))
         <> StatusUnauthorized)
  /\ (forall r' chain e',
         Match (RegisterSystemRoutes main) r' = Found chain e' ->
         (In IsAuthenticated chain <-> Path r' = "/version")).
Proof.
  intros Hroute. apply system_route_cases in Hroute.
  destruct (system_match r e Hroute) as (Hmain & Hmatch & _).
  split; [exact Hmain |]. split; [exact Hmatch |].
  split; [intros s; now apply system_serve |]. split; [| split].
  - intros s c.
    rewrite (system_serve cfg env (with_cookie r c) e s Hroute).
    rewrite (system_serve cfg env r e s Hroute).
    unfold through_limiters. cbn [with_cookie RemoteAddr At].
    now rewrite (command_ignores_cookie cfg env _ _ e r c _ Hroute).
  - intros s. rewrite (system_serve cfg env r e s Hroute). unfold through_limiters.
    destruct (fst (Limiter.Get (rate_of General) _ _ _)); [discriminate |].
    destruct (fst (Limiter.Get (rate_of System) _ _ _)); [discriminate |].
    cbn [snd]. eapply command_never_unauthorized; [exact Hroute | discriminate].
  - apply gate_only_on_version.
Qed.

(** ** The general limiter *)




Section Window.

Variable rate : Limiter.Rate.
Variable key : string.
Variable expiration : Z.


End Window.

Lemma limiterMiddleware_run (l : LimiterId) (next : Handler) (r : Request) (st : State) :
  limiterMiddleware l next r st
  = let g := Limiter.Get (rate_of l) (store_of l (server st)) (RemoteAddr r) (At r) in
    let st' := {| server := set_store l (snd g) (server st);
                  w := w st; registry := registry st |} in
    if fst g then http_Error "Limit exceeded" StatusTooManyRequests st'
    else next r st'.
Proof.
  unfold limiterMiddleware, bind, get_server, with_server. cbn [fst snd].
  destruct (Limiter.Get _ _ _ _) as [[|] c]; reflexivity.
Qed.


(** ** The theorems at concrete inputs *)

Definition header_line : string := "  UNIT          LOAD   ACTIVE SUB     DESCRIPTION".
Definition dbus_line : string := "  dbus.service  loaded active running D-Bus User   Message Bus".
Definition web_line : string := "  web.service   loaded failed failed  Web server".

Lemma parseUnits_correct_witness :
  Forall (fun l => has_byte nl l = false) [header_line; dbus_line; web_line]
  /\ eligible ".service" (Fields header_line) = false
  /\ Forall (fun l => eligible ".service" (Fields l) = true) [dbus_line; web_line]
  /\ fst (parseUnits (Join [header_line; dbus_line; web_line] (String nl EmptyString))
                     ".service")
     = [ {| UNIT := "dbus.service"; LOAD := "loaded"; ACTIVE := "active"; SUB := "running";
            DESCRIPTION := "D-Bus User Message Bus" |};
         {| UNIT := "web.service"; LOAD := "loaded"; ACTIVE := "failed"; SUB := "failed";
            DESCRIPTION := "Web server" |} ]
  /\ parseUnits_body ".service" [] "foo.socket loaded active listening Foo socket" = [].
Proof.
  assert (H1 : Forall (fun l => has_byte nl l = false) [header_line; dbus_line; web_line])
    by (repeat constructor).
  assert (H2 : eligible ".service" (Fields header_line) = false) by reflexivity.
  assert (H3 : Forall (fun l => eligible ".service" (Fields l) = true) [dbus_line; web_line])
    by (repeat constructor).
  destruct (parseUnits_correct ".service") as (_ & Hlisting & Hsocket).
  split; [exact H1 |]. split; [exact H2 |]. split; [exact H3 |]. split.
  - exact (proj1 (Hlisting header_line [dbus_line; web_line] H1 H2 H3)).
  - apply Hsocket. reflexivity.
Defined.


Definition read_request : Request :=
  {| Method := "GET"; Path := "/system/read";
     Query := <["filename" := ["notes.txt"]]> (<["filepath" := ["/tmp"]]> ∅);
     Body := None; Cookie := None; RemoteAddr := "203.0.113.7"; At := 2000;
     Preflight := false |}.

Lemma missing_parameter_bad_request_witness :
  In "filecontent" (required WriteFileHandler)
  /\ Get (Query read_request) "filecontent" = EmptyString
  /\ fst (serve (endpoint admin chatty WriteFileHandler) idle read_request) = idle
  /\ Status (snd (serve (endpoint admin chatty WriteFileHandler) idle read_request))
     = StatusBadRequest.
Proof.
  assert (H1 : In "filecontent" (required WriteFileHandler)) by (cbn; auto).
  assert (H2 : Get (Query read_request) "filecontent" = EmptyString) by reflexivity.
  pose proof (missing_parameter_bad_request admin chatty WriteFileHandler idle read_request
                "filecontent" H1 H2) as (Hs & Hst & _).
  auto.
Defined.


Lemma login_wrong_credentials_witness :
  Body (post_login (Some (credentials_json "admin" "guess")))
  = Some (credentials_json "admin" "guess")
  /\ ("admin", "guess") <> (USERNAME admin, PASSWORD admin)
  /\ serve (loginHandler admin) idle (post_login (Some (credentials_json "admin" "guess")))
     = (idle, plain_error "Invalid username or password" StatusUnauthorized).
Proof.
  assert (H2 : ("admin", "guess") <> (USERNAME admin, PASSWORD admin)) by discriminate.
  split; [reflexivity |]. split; [exact H2 |].
  exact (proj1 (login_wrong_credentials admin idle
                  (post_login (Some (credentials_json "admin" "guess")))
                  "admin" "guess" eq_refl H2)).
Defined.

Lemma login_undecodable_witness :
  decodes (Body (post_login (Some (Json.Array [])))) = false
  /\ serve (loginHandler admin) idle (post_login (Some (Json.Array [])))
     = (idle, plain_error "Invalid request payload" StatusBadRequest)
  /\ init_ok admin = true
  /\ serve (loginHandler admin) idle (post_login (Some (Json.Object [("user", Json.Str "admin")])))
     = (idle, plain_error "Invalid username or password" StatusUnauthorized).
Proof.
  split; [reflexivity |]. split; [| split; [reflexivity |]].
  - exact (proj1 (login_undecodable admin idle (post_login (Some (Json.Array [])))) eq_refl).
  - refine (proj2 (login_undecodable admin idle
                     (post_login (Some (Json.Object [("user", Json.Str "admin")]))))
                  [("user", Json.Str "admin")] (or_intror eq_refl) _ eq_refl).
    repeat constructor.
Defined.

Lemma system_routes_ungated_witness :
  system_route (Method get_services) (Path get_services) = Some ListServicesHandler
  /\ Match (RegisterSystemRoutes main) get_services
     = Found [Cors; SecurityHeaders; Limit General; Limit System] ListServicesHandler
  /\ Status (snd (serve (ServeHTTP admin chatty (RegisterSystemRoutes main)) idle get_services))
     <> StatusUnauthorized.
Proof.
  pose proof (system_routes_ungated admin chatty get_services ListServicesHandler eq_refl)
    as (_ & Hmatch & _ & _ & Hstatus & _).
  split; [reflexivity |]. split; [exact Hmatch | apply Hstatus].
Defined.

Definition client : string := "203.0.113.7".



Definition good_login : Request := post_login (Some (credentials_json "admin" "secret")).

Lemma session_identity_witness :
  issued admin chatty main {["user" := "admin"]}
  /\ ({["user" := "admin"]} : Values) !! "user" = Some "admin"
  /\ "admin" = USERNAME admin.
Proof.
  assert (H1 : issued admin chatty main {["user" := "admin"]}).
  { apply (issued_first admin chatty main idle good_login); [reflexivity |].
    vm_compute. right. left. reflexivity. }
  assert (H2 : ({["user" := "admin"]} : Values) !! "user" = Some "admin") by reflexivity.
  split; [exact H1 |]. split; [exact H2 |].
  exact (proj1 (proj2 (session_identity admin chatty main)) _ H1 "admin" H2).
Defined.

(** * Further properties of the handlers *)

(** ** What a command handler does to the server and answers *)

(** The server once the given effects have been logged. *)
Definition add_effects (es : list Effect) (s : Server) : Server :=
  {| files := files s; effects := effects s ++ es; generalStore := generalStore s;
     loginStore := loginStore s; systemStore := systemStore s |}.

(** The answer of a handler that sets the JSON content type and encodes a
    value on a response not yet written to. *)
Definition json_ok (v : Json.value) : ResponseWriter :=
  {| Status := StatusOK; Header := <["Content-Type" := "application/json"]> ∅;
     Sent := JSON v; SetCookie := [] |}.

(** The server once a file has been written. *)
Definition with_file (path data : string) (s : Server) : Server :=
  {| files := <[path := data]> (files s); effects := effects s;
     generalStore := generalStore s; loginStore := loginStore s;
     systemStore := systemStore s |}.

Definition full_path (r : Request) : string :=
  Get (Query r) "filepath" +:+ "/" +:+ Get (Query r) "filename".

Lemma service_action_serve env verb doing done s r :
  serve (service_action env verb doing done) s r
  = let target := Get (Query r) "target" in
    let argv := ["systemctl"; "--user"; verb; target] in
    if String.eqb target EmptyString
    then (s, plain_error "Service name is required" StatusBadRequest)
    else (add_effects [Spawn argv] s,
          if succeeded (run env argv)
          then json_ok (Json.of_strings
                          [("message", "Service " +:+ target +:+ " " +:+ done +:+ " successfully")])
          else plain_error ("Error " +:+ doing +:+ " service " +:+ target)
                           StatusInternalServerError).
Proof.
  unfold serve, service_action, exec_Run. cbn zeta.
  destruct (String.eqb _ _); [cbn; destruct s; reflexivity |].
  run_monad. destruct (succeeded _); reflexivity.
Qed.

Lemma WriteFile_serve env s r :
  serve (WriteFile env) s r
  = let filename := Get (Query r) "filename" in
    let filepath := Get (Query r) "filepath" in
    let filecontent := Get (Query r) "filecontent" in
    if String.eqb filename EmptyString || String.eqb filepath EmptyString
       || String.eqb filecontent EmptyString
    then (s, plain_error "Filename, filepath, and filecontent are required" StatusBadRequest)
    else if writable env (full_path r)
         then (with_file (full_path r) filecontent
                 (add_effects [FileWrite (full_path r) filecontent] s),
               json_ok (Json.of_strings
                          [("message",
                            "File " +:+ filename +:+ " saved successfully at " +:+ filepath)]))
         else (add_effects [FileWrite (full_path r) filecontent] s,
               plain_error ("Error saving file " +:+ filename +:+ " at " +:+ filepath)
                           StatusInternalServerError).
Proof.
  unfold serve, WriteFile, os_WriteFile, full_path. cbn zeta.
  destruct (_ || _); [cbn; destruct s; reflexivity |].
  run_monad. destruct (writable env _); reflexivity.
Qed.

Lemma ReadFile_serve s r :
  serve ReadFile s r
  = let filename := Get (Query r) "filename" in
    let filepath := Get (Query r) "filepath" in
    if String.eqb filename EmptyString || String.eqb filepath EmptyString
    then (s, plain_error "Filename and filepath are required" StatusBadRequest)
    else (add_effects [FileRead (full_path r)] s,
          match files s !! full_path r with
          | Some data => json_ok (Json.Object [("content", Json.Str data)])
          | None => plain_error ("Error reading file " +:+ filename +:+ " at " +:+ filepath)
                                StatusInternalServerError
          end).
Proof.
  unfold serve, ReadFile, os_ReadFile, full_path. cbn zeta.
  destruct (_ || _); [cbn; destruct s; reflexivity |].
  run_monad. destruct (files s !! _); reflexivity.
Qed.

(** The shell line that [ScheduleTask] builds with [fmt.Sprintf]. *)
Definition at_line (command time : string) : string :=
  "echo " +:+ quote +:+ command +:+ quote +:+ " | at " +:+ time.

Lemma ScheduleTask_serve env s r :
  serve (ScheduleTask env) s r
  = let time := Get (Query r) "time" in
    let command := Get (Query r) "command" in
    let argv := ["sh"; "-c"; at_line command time] in
    if String.eqb time EmptyString || String.eqb command EmptyString
    then (s, plain_error "Both time and command are required" StatusBadRequest)
    else (add_effects [Spawn argv] s,
          if succeeded (run env argv)
          then json_ok (Json.of_strings [("message", "Task scheduled at " +:+ time)])
          else plain_error ("Error scheduling task at " +:+ time) StatusInternalServerError).
Proof.
  unfold serve, ScheduleTask, executeCommand, exec_Output, at_line. cbn zeta.
  destruct (_ || _); [cbn; destruct s; reflexivity |].
  run_monad. destruct (succeeded _); reflexivity.
Qed.

Lemma ListServices_serve env s r :
  serve (ListServices env) s r
  = let p1 := run env listServicesCommand in
    let p2 := run env listSocketsCommand in
    if succeeded p1 then
      if succeeded p2 then
        (add_effects [Spawn listServicesCommand; Spawn listSocketsCommand] s,
         json_ok (Json.Object
                    [("services", Units_json (fst (parseUnits (stdout_of p1) ".service")));
                     ("sockets", Units_json (fst (parseUnits (stdout_of p2) ".socket")))]))
      else (add_effects [Spawn listServicesCommand; Spawn listSocketsCommand] s,
            plain_error "Error fetching sockets" StatusInternalServerError)
    else (add_effects [Spawn listServicesCommand] s,
          plain_error "Error fetching services" StatusInternalServerError).
Proof.
  unfold serve, ListServices, executeCommand, exec_Output, listServicesCommand,
    listSocketsCommand, add_effects.
  cbn.
  destruct (succeeded (run env _)) eqn:H1; cbn; [| reflexivity].
  rewrite parseUnits_units. cbn.
  destruct (succeeded (run env ["sh"; "-c"; "systemctl --user list-units --type=socket --all"]))
    eqn:H2; cbn.
  - rewrite !parseUnits_units. cbn. rewrite <- app_assoc. reflexivity.
  - rewrite <- app_assoc. reflexivity.
Qed.

(** The verb that a lifecycle handler hands to systemctl, and the two words
    of its messages. *)
Definition lifecycle (e : Endpoint) : option (string * string * string) :=
  match e with
  | StartServiceHandler => Some ("start", "starting", "started")
  | StopServiceHandler => Some ("stop", "stopping", "stopped")
  | RestartServiceHandler => Some ("restart", "restarting", "restarted")
  | _ => None
  end.

(** X1. [StartService], [StopService] and [RestartService], given a target
    that is not empty, start exactly one process, systemctl --user with the
    verb of the handler and the target as one argument of its own (no shell
    is involved), and change nothing else of the server.  The answer is 200
    with a JSON message that names the target when the process started and
    exited with status 0, and 500 with a plain-text message that names the
    target otherwise. *)
Theorem lifecycle_outcome (cfg : Config) (env : Env) (e : Endpoint)
        (verb doing done : string) (s : Server) (r : Request) :
  lifecycle e = Some (verb, doing, done) ->
  Get (Query r) "target" <> EmptyString ->
  serve (endpoint cfg env e) s r
  = (add_effects [Spawn ["systemctl"; "--user"; verb; Get (Query r) "target"]] s,
     if succeeded (run env ["systemctl"; "--user"; verb; Get (Query r) "target"])
     then json_ok (Json.of_strings
                     [("message",
                       "Service " +:+ Get (Query r) "target" +:+ " " +:+ done +:+ " successfully")])
     else plain_error ("Error " +:+ doing +:+ " service " +:+ Get (Query r) "target")
                      StatusInternalServerError).
Proof.
  intros Hverb Htarget.
  apply String.eqb_neq in Htarget.
  destruct e; try discriminate; injection Hverb as <- <- <-;
    cbn [endpoint]; unfold StartService, StopService, RestartService;
    rewrite service_action_serve; cbn zeta; rewrite Htarget; reflexivity.
Qed.




(** X5. [ScheduleTask], given a time and a command that are not empty,
    starts exactly one process: a shell on the line made of echo, the command
    between double quotes, a pipe, at and the time, both parameters put in as
    they came.  The answer is 200 with a message that names the time when the
    shell exited with status 0, 500 otherwise; what the shell wrote is not
    part of either answer. *)
Theorem ScheduleTask_outcome (env : Env) (s : Server) (r : Request) :
  Get (Query r) "time" <> EmptyString ->
  Get (Query r) "command" <> EmptyString ->
  let argv := ["sh"; "-c"; at_line (Get (Query r) "command") (Get (Query r) "time")] in
  serve (ScheduleTask env) s r
  = (add_effects [Spawn argv] s,
     if succeeded (run env argv)
     then json_ok (Json.of_strings [("message", "Task scheduled at " +:+ Get (Query r) "time")])
     else plain_error ("Error scheduling task at " +:+ Get (Query r) "time")
                      StatusInternalServerError).
Proof.
  intros Htime Hcommand argv. subst argv.
  apply String.eqb_neq in Htime, Hcommand.
  rewrite ScheduleTask_serve. cbn zeta. rewrite Htime, Hcommand. reflexivity.
Qed.

(** ** The handlers of [main.go] *)

(** The credentials that [init] loaded. *)
Definition configured (cfg : Config) : Credentials :=
  {| Username := USERNAME cfg; Password := PASSWORD cfg |}.

(** The session that a login saves. *)
Definition identity (cfg : Config) : Values := {["user" := USERNAME cfg]}.

(** The answer to a login that is accepted, on a response not yet written
    to: two cookies are set, the session emptied, then the session with the
    identity. *)
Definition login_ok (cfg : Config) : ResponseWriter :=
  {| Status := StatusOK; Header := <["Content-Type" := "application/json"]> ∅;
     Sent := JSON (Json.of_strings [("message", "Login successful");
                                    ("sessionId", EmptyString)]);
     SetCookie := [∅; identity cfg] |}.

Lemma loginHandler_server (cfg : Config) (r : Request) (st : State) :
  server (snd (loginHandler cfg r st)) = server st.
Proof.
  unfold loginHandler.
  destruct (JsonDecode.Decode _ _) as [creds [e |]]; [reflexivity |].
  destruct (_ && _); [| reflexivity].
  unfold store_Get, session_clear, session_put, session_Save. run_monad.
  destruct (registry st); reflexivity.
Qed.

Lemma loginHandler_accepts (cfg : Config) (r : Request) (st : State) :
  JsonDecode.Decode (Body r) no_credentials = (configured cfg, None) ->
  snd (loginHandler cfg r st)
  = {| server := server st;
       w := {| Status := Status (w st);
               Header := <["Content-Type" := "application/json"]> (Header (w st));
               Sent := JSON (Json.of_strings [("message", "Login successful");
                                              ("sessionId", EmptyString)]);
               SetCookie := SetCookie (w st) ++ [∅; identity cfg] |};
       registry := Some (identity cfg) |}.
Proof.
  intros Hdec. unfold loginHandler. fold no_credentials. rewrite Hdec.
  cbn [configured Username Password]. rewrite !String.eqb_refl. cbn [andb].
  unfold store_Get, session_clear, session_put, session_Save. run_monad.
  destruct (registry st); cbn; rewrite <- app_assoc; reflexivity.
Qed.

Lemma versionHandler_run (cfg : Config) (r : Request) (st : State) :
  snd (versionHandler cfg r st)
  = {| server := server st;
       w := {| Status := Status (w st);
               Header := <["Content-Type" := "application/json"]> (Header (w st));
               Sent := JSON (Json.of_strings [("version", VERSION cfg)]);
               SetCookie := SetCookie (w st) |};
       registry := registry st |}.
Proof. reflexivity. Qed.

Lemma endpoint_server_main (cfg : Config) (env : Env) (e : Endpoint) (s : Server)
      (r : Request) :
  e = LoginHandler \/ e = VersionHandler \/ e = OptionsHandler ->
  fst (serve (endpoint cfg env e) s r) = s.
Proof.
  intros [-> | [-> | ->]]; unfold serve; cbn [endpoint fst].
  - now rewrite loginHandler_server.
  - reflexivity.
  - reflexivity.
Qed.

(** The most effects one request to a handler can have. *)
Definition effects_bound (e : Endpoint) : nat :=
  match e with
  | LoginHandler | VersionHandler | OptionsHandler => 0
  | ListServicesHandler => 2
  | _ => 1
  end.

(** X6. What no handler does.  Whatever the request, a handler leaves the
    counters of the three limiters as they are; only [WriteFile] changes a
    file; the log of effects only grows, by at most two effects for
    [ListServices], at most one for the other handlers of package routes, and
    none for the handlers of [main.go], which start no process and touch no
    file. *)
Theorem handlers_frame (cfg : Config) (env : Env) (e : Endpoint) (s : Server)
        (r : Request) :
  let s' := fst (serve (endpoint cfg env e) s r) in
  (generalStore s', loginStore s', systemStore s')
  = (generalStore s, loginStore s, systemStore s)
  /\ (e <> WriteFileHandler -> files s' = files s)
  /\ exists new, effects s' = effects s ++ new /\ length new <= effects_bound e.
Proof.
  intros s'. subst s'.
  assert (Hsame : forall x : Server * ResponseWriter,
             fst x = s ->
             (generalStore (fst x), loginStore (fst x), systemStore (fst x))
             = (generalStore s, loginStore s, systemStore s)
             /\ (e <> WriteFileHandler -> files (fst x) = files s)
             /\ exists new, effects (fst x) = effects s ++ new
                            /\ length new <= effects_bound e).
  { intros x ->. repeat split.
    exists []. rewrite app_nil_r. split; [reflexivity | cbn; lia]. }
  destruct e;
    try (apply Hsame; apply endpoint_server_main; auto; fail);
    cbn [endpoint]; unfold StartService, StopService, RestartService;
    rewrite ?ListServices_serve, ?service_action_serve, ?WriteFile_serve,
      ?ReadFile_serve, ?ScheduleTask_serve;
    cbn zeta;
    repeat match goal with
           | |- context [if ?b then _ else _] => destruct b
           end;
    try (apply Hsame; reflexivity);
    cbn [fst add_effects with_file files effects generalStore loginStore systemStore];
    (split; [reflexivity |]); (split; [try reflexivity; congruence |]);
    eexists; (split; [reflexivity | cbn; lia]).
Qed.

(** X7. A login whose body decodes to the configured user name and password
    is answered 200 with the JSON message Login successful and an empty
    sessionId.  It sets the session cookie twice, first emptied, then holding
    the configured user name under the key user and nothing else: whatever the
    session of the request held before is discarded, and the browser is left
    with exactly the identity.  The server is as it was. *)
Theorem login_success (cfg : Config) (s : Server) (r : Request) :
  JsonDecode.Decode (Body r) no_credentials = (configured cfg, None) ->
  serve (loginHandler cfg) s r = (s, login_ok cfg)
  /\ cookie_after (Cookie r) (snd (serve (loginHandler cfg) s r)) = Some (identity cfg)
  /\ (forall k, identity cfg !! k = if String.eqb k "user" then Some (USERNAME cfg) else None).
Proof.
  intros Hdec.
  assert (Hrun : serve (loginHandler cfg) s r = (s, login_ok cfg)).
  { unfold serve. rewrite (loginHandler_accepts cfg r _ Hdec). reflexivity. }
  split; [exact Hrun |]. split; [rewrite Hrun; reflexivity |].
  intros k. unfold identity.
  destruct (String.eqb_spec k "user") as [-> | Hne].
  - apply lookup_singleton_eq.
  - apply lookup_singleton_ne. congruence.
Qed.

(** The answer of the gate and [versionHandler] to a session. *)
Definition version_answer (cfg : Config) (session : Values) : ResponseWriter :=
  match session !! "user" with
  | Some _ => json_ok (Json.of_strings [("version", VERSION cfg)])
  | None => plain_error "Unauthorized" StatusUnauthorized
  end.

(** The session of a request: the one of its cookie, a new and empty one
    when it has none. *)
Definition session_of (r : Request) : Values :=
  match Cookie r with
  | Some v => v
  | None => ∅
  end.

Lemma gate_version_run (cfg : Config) (r : Request) (st : State) :
  registry st = None ->
  snd (isAuthenticated (versionHandler cfg) r st)
  = match session_of r !! "user" with
    | Some _ =>
      {| server := server st;
         w := {| Status := Status (w st);
                 Header := <["Content-Type" := "application/json"]> (Header (w st));
                 Sent := JSON (Json.of_strings [("version", VERSION cfg)]);
                 SetCookie := SetCookie (w st) |};
         registry := Some (session_of r) |}
    | None =>
      snd (http_Error "Unauthorized" StatusUnauthorized
             {| server := server st; w := w st; registry := Some (session_of r) |})
    end.
Proof.
  intros Hreg. unfold isAuthenticated, store_Get, bind, session_of. rewrite Hreg.
  destruct (match Cookie r with Some c => c | None => ∅ end !! "user"); reflexivity.
Qed.

(** X8. [versionHandler] behind [isAuthenticated] answers by the session of
    the request alone: 200 with the configured version when the session holds
    any value under the key user, 401 with the plain text Unauthorized when it
    holds none or the request has no session.  The answer does not depend on
    the state of the server, which keeps no record of the sessions it issued,
    and neither the server nor the cookie changes. *)
Theorem version_behind_gate (cfg : Config) (s : Server) (r : Request) :
  serve (isAuthenticated (versionHandler cfg)) s r = (s, version_answer cfg (session_of r))
  /\ (Cookie r = None ->
      snd (serve (isAuthenticated (versionHandler cfg)) s r)
      = plain_error "Unauthorized" StatusUnauthorized)
  /\ (forall v u, Cookie r = Some v -> v !! "user" = Some u ->
      snd (serve (isAuthenticated (versionHandler cfg)) s r)
      = json_ok (Json.of_strings [("version", VERSION cfg)])).
Proof.
  assert (Hrun : serve (isAuthenticated (versionHandler cfg)) s r
                 = (s, version_answer cfg (session_of r))).
  { unfold serve. rewrite gate_version_run by reflexivity. unfold version_answer.
    destruct (session_of r !! "user"); cbn; destruct s; reflexivity. }
  split; [exact Hrun |]. rewrite Hrun. cbn [snd]. unfold version_answer, session_of. split.
  - intros ->. now rewrite lookup_empty.
  - intros v u -> ->. reflexivity.
Qed.

Lemma names_apart (k a b : string) :
  JsonDecode.names k a = true ->
  JsonDecode.names a b = false ->
  JsonDecode.names k b = false.
Proof.
  unfold JsonDecode.names. intros Hka Hab.
  apply String.eqb_eq in Hka. now rewrite Hka.
Qed.

(** X9. The decoder of [loginHandler] matches the keys of the body without
    regard to the case of their letters, in either order: a body whose two
    members have keys that fold to username and to password, and hold the
    configured user name and password, is a successful login. *)
Theorem login_keys_fold (cfg : Config) (s : Server) (r : Request) (ku kp : string) :
  JsonDecode.names ku "username" = true ->
  JsonDecode.names kp "password" = true ->
  Body r = Some (Json.Object [(ku, Json.Str (USERNAME cfg)); (kp, Json.Str (PASSWORD cfg))])
  \/ Body r = Some (Json.Object [(kp, Json.Str (PASSWORD cfg)); (ku, Json.Str (USERNAME cfg))]) ->
  serve (loginHandler cfg) s r = (s, login_ok cfg).
Proof.
  intros Hu Hp Hbody.
  assert (Hpu : JsonDecode.names kp "username" = false)
    by (apply (names_apart kp "password"); [exact Hp | reflexivity]).
  assert (Hdec : JsonDecode.Decode (Body r) no_credentials = (configured cfg, None)).
  { destruct Hbody as [-> | ->]; cbn [JsonDecode.Decode JsonDecode.members];
      rewrite ?Hu, ?Hpu, ?Hp; cbn [JsonDecode.into_string]; rewrite ?Hu, ?Hpu, ?Hp;
      reflexivity. }
  unfold serve. rewrite (loginHandler_accepts cfg r _ Hdec). reflexivity.
Qed.

(** ** The routes of [main] *)


Lemma main_match (r : Request) :
  Match main r
  = if String.eqb (Path r) "/login" then
      if has_method (Method r) ["POST"; "OPTIONS"]
      then Found [Cors; SecurityHeaders; Limit General; Limit Login] LoginHandler
      else MethodMismatch
    else if String.eqb (Path r) "/version" then
      if has_method (Method r) ["GET"; "OPTIONS"]
      then Found [Cors; SecurityHeaders; Limit General; IsAuthenticated] VersionHandler
      else MethodMismatch
    else NotFound.
Proof.
  destruct r as [m p q b c a t pf]. unfold Match. cbn.
  repeat match goal with
         | |- context [String.eqb ?a ?b] =>
           destruct (String.eqb_spec a b); subst; cbn; try discriminate
         end; reflexivity.
Qed.

Lemma match_entries_found_app use es tail r : forall mm chain e,
  match_entries use es r mm = Found chain e ->
  match_entries use (es ++ tail) r mm = Found chain e.
Proof.
  induction es as [| [rt | sub] es IH]; intros mm chain e H;
    cbn [match_entries app] in *.
  - destruct mm; discriminate.
  - destruct (match_routes _ _ _ _) as [[rt' |] mm']; [exact H | now apply IH].
  - destruct (String.prefix _ _); [| now apply IH].
    destruct (match_routes _ _ _ _) as [[rt' |] mm']; [exact H | now apply IH].
Qed.

Lemma match_entries_app_miss use es sub r :
  String.prefix (Prefix sub) (Path r) = false ->
  forall mm, match_entries use (es ++ [Sub sub]) r mm = match_entries use es r mm.
Proof.
  intros Hmiss.
  induction es as [| [rt | sub'] es IH]; intros mm; cbn [match_entries app].
  - now rewrite Hmiss.
  - destruct (match_routes _ _ _ _) as [[rt' |] mm']; [reflexivity | apply IH].
  - destruct (String.prefix (Prefix sub') _); [| apply IH].
    destruct (match_routes _ _ _ _) as [[rt' |] mm']; [reflexivity | apply IH].
Qed.

(** X10. [RegisterSystemRoutes] takes nothing from the router it is given:
    a request that a router matches to a handler is matched to the same
    handler behind the same middlewares once the system routes are
    registered, so a route registered before them takes precedence; a
    request whose path does not begin with /system is matched as before; and
    every match, a system route included, runs behind all the middlewares of
    the router, in their order. *)
Theorem RegisterSystemRoutes_keeps (rt : Router) (r : Request) :
  (forall chain e,
      Match rt r = Found chain e -> Match (RegisterSystemRoutes rt) r = Found chain e)
  /\ (String.prefix "/system" (Path r) = false ->
      Match (RegisterSystemRoutes rt) r = Match rt r)
  /\ (forall chain e,
         Match (RegisterSystemRoutes rt) r = Found chain e ->
         exists rest, chain = Use rt ++ rest).
Proof.
  unfold Match, RegisterSystemRoutes. cbn [Entries Use]. split; [| split].
  - intros chain e H. now apply match_entries_found_app.
  - intros Hmiss. now apply match_entries_app_miss.
  - intros chain e H. now apply match_entries_use in H.
Qed.

Lemma routes_found (r : Request) (chain : list Middleware) (e : Endpoint) :
  Match (RegisterSystemRoutes main) r = Found chain e ->
  (e = LoginHandler /\ Path r = "/login"
   /\ chain = [Cors; SecurityHeaders; Limit General; Limit Login])
  \/ (e = VersionHandler /\ Path r = "/version"
      /\ chain = [Cors; SecurityHeaders; Limit General; IsAuthenticated])
  \/ (In (Method r, Path r, e) system_table
      /\ chain = [Cors; SecurityHeaders; Limit General; Limit System]).
Proof.
  destruct r as [m p q b c a t pf]. unfold Match. cbn. intros H.
  repeat match type of H with
         | context [String.eqb ?a ?b] =>
           destruct (String.eqb_spec a b); subst; cbn in H
         | context [String.prefix ?a ?b] =>
           destruct (String.prefix a b); cbn in H
         end;
    try discriminate; inversion H; subst; cbn; auto 20.
Qed.

(** X11. The routes of [main], from its calls in their order.  /login under
    POST or OPTIONS goes to [loginHandler] behind CORS, the security headers,
    the general limiter and the login limiter: the general limiter, added
    last with [Use], is in front of the login route as of every other.
    /version under GET or OPTIONS goes to [versionHandler] behind CORS, the
    security headers, the general limiter and the gate.  Either path under
    another method is a method mismatch, any other path is not found.  The
    two routes registered last, for [optionsHandler] under OPTIONS, come after
    routes that already take OPTIONS on the same paths: no request is ever
    matched to [optionsHandler], on this router or once the system routes are
    registered. *)
Theorem main_routes (r : Request) :
  Match main r
  = (if String.eqb (Path r) "/login" then
       if has_method (Method r) ["POST"; "OPTIONS"]
       then Found [Cors; SecurityHeaders; Limit General; Limit Login] LoginHandler
       else MethodMismatch
     else if String.eqb (Path r) "/version" then
       if has_method (Method r) ["GET"; "OPTIONS"]
       then Found [Cors; SecurityHeaders; Limit General; IsAuthenticated] VersionHandler
       else MethodMismatch
     else NotFound)
  /\ (forall chain e, Match main r = Found chain e -> e <> OptionsHandler)
  /\ (forall chain e,
         Match (RegisterSystemRoutes main) r = Found chain e -> e <> OptionsHandler).
Proof.
  assert (Hreg : forall chain e,
             Match (RegisterSystemRoutes main) r = Found chain e -> e <> OptionsHandler).
  { intros chain e H. apply routes_found in H.
    destruct H as [(-> & _) | [(-> & _) | (Hin & _)]]; try discriminate.
    cbn in Hin.
    repeat destruct Hin as [Hin | Hin]; try contradiction; inversion Hin; discriminate. }
  split; [apply main_match |]. split; [| exact Hreg].
  intros chain e H. apply (Hreg chain).
  unfold Match, RegisterSystemRoutes. cbn [Entries Use].
  now apply match_entries_found_app.
Qed.




(** ** Requests through the middlewares of [main] *)

(** The five headers that [securityHeadersMiddleware] sets. *)
Definition security_headers : list (string * string) :=
  [ ("Content-Security-Policy", "default-src 'self'");
    ("Strict-Transport-Security", "max-age=63072000; includeSubDomains; preload");
    ("X-Content-Type-Options", "nosniff");
    ("X-Frame-Options", "DENY");
    ("X-XSS-Protection", "1; mode=block") ].

(** A CORS preflight request, as [cors.Handler] tells it. *)
Definition preflight (r : Request) : bool :=
  String.eqb (Method r) "OPTIONS" && Preflight r.

(** A request to /login that is not a preflight, served by the router of
    [main]: the general limiter, the login limiter, then the handler. *)
Definition login_pipeline (cfg : Config) (s : Server) (r : Request)
  : Server * ResponseWriter :=
  let g := Limiter.Get (rate_of General) (generalStore s) (RemoteAddr r) (At r) in
  let s1 := set_store General (snd g) s in
  if fst g then (s1, rejected)
  else
    let y := Limiter.Get (rate_of Login) (loginStore s) (RemoteAddr r) (At r) in
    let s2 := set_store Login (snd y) s1 in
    if fst y then (s2, rejected)
    else (s2, w (snd (loginHandler cfg r {| server := s2; w := secured; registry := None |}))).

(** A request to /version that is not a preflight: the general limiter, the
    gate, then the handler. *)
Definition version_pipeline (cfg : Config) (s : Server) (r : Request)
  : Server * ResponseWriter :=
  let g := Limiter.Get (rate_of General) (generalStore s) (RemoteAddr r) (At r) in
  let s1 := set_store General (snd g) s in
  if fst g then (s1, rejected)
  else (s1, w (snd (isAuthenticated (versionHandler cfg) r
                      {| server := s1; w := secured; registry := None |}))).

Lemma login_serve (cfg : Config) (env : Env) (s : Server) (r : Request) :
  Path r = "/login" ->
  has_method (Method r) ["POST"; "OPTIONS"] = true ->
  preflight r = false ->
  serve (ServeHTTP cfg env main) s r = login_pipeline cfg s r.
Proof.
  intros Hpath Hmethod Hpre.
  unfold serve, ServeHTTP. rewrite main_match, Hpath, Hmethod.
  cbn [String.eqb Ascii.eqb Bool.eqb chained fold_right middleware endpoint].
  unfold corsHandler. fold (preflight r). rewrite Hpre.
  unfold securityHeadersMiddleware, limiterMiddleware, login_pipeline. run_monad.
  destruct (Limiter.Get _ (generalStore s) _ _) as [[|] c1]; cbn; [reflexivity |].
  destruct (Limiter.Get _ (loginStore s) _ _) as [[|] c2]; cbn; [reflexivity |].
  now rewrite loginHandler_server.
Qed.

Lemma version_serve (cfg : Config) (env : Env) (s : Server) (r : Request) :
  Path r = "/version" ->
  has_method (Method r) ["GET"; "OPTIONS"] = true ->
  preflight r = false ->
  serve (ServeHTTP cfg env main) s r = version_pipeline cfg s r.
Proof.
  intros Hpath Hmethod Hpre.
  unfold serve, ServeHTTP. rewrite main_match, Hpath, Hmethod.
  cbn [String.eqb Ascii.eqb Bool.eqb chained fold_right middleware endpoint].
  unfold corsHandler. fold (preflight r). rewrite Hpre.
  unfold securityHeadersMiddleware, limiterMiddleware, version_pipeline. run_monad.
  destruct (Limiter.Get _ (generalStore s) _ _) as [[|] c1]; cbn; [reflexivity |].
  unfold isAuthenticated, store_Get. run_monad.
  destruct (match Cookie r with Some c => c | None => ∅ end !! "user"); reflexivity.
Qed.

(** X13. A CORS preflight request for /login or /version is answered by
    [cors.Handler], the outermost middleware, and by nothing behind it: the
    status is 200, no session is read (the request for /version need not be
    authenticated), no counter of a limiter moves, none of the security
    headers is set and no cookie; the server is as it was. *)
Theorem preflight_answered_by_cors (cfg : Config) (env : Env) (s : Server) (r : Request) :
  Path r = "/login" \/ Path r = "/version" ->
  preflight r = true ->
  fst (serve (ServeHTTP cfg env main) s r) = s
  /\ Status (snd (serve (ServeHTTP cfg env main) s r)) = StatusOK
  /\ Sent (snd (serve (ServeHTTP cfg env main) s r)) = NoBody
  /\ SetCookie (snd (serve (ServeHTTP cfg env main) s r)) = []
  /\ (forall k v, In (k, v) security_headers ->
                  Header (snd (serve (ServeHTTP cfg env main) s r)) !! k = None).
Proof.
  intros Hpath Hpre.
  assert (Hopt : Method r = "OPTIONS").
  { unfold preflight in Hpre. apply andb_true_iff in Hpre as [Hm _].
    now apply String.eqb_eq in Hm. }
  assert (Hrun : serve (ServeHTTP cfg env main) s r = (s, fresh)).
  { unfold serve, ServeHTTP. rewrite main_match.
    destruct Hpath as [Hp | Hp]; rewrite Hp, Hopt;
      cbn [String.eqb Ascii.eqb Bool.eqb has_method existsb orb
           chained fold_right middleware];
      unfold corsHandler; fold (preflight r); rewrite Hpre; cbn; destruct s; reflexivity. }
  rewrite Hrun. repeat split.
Qed.

(** X14. A request for /login that is not a preflight goes through the
    general limiter, then the login limiter, then [loginHandler]: the general
    limiter stands in front of the login route too.  When the general limiter
    is over its limit the answer is 429, the login limiter does not count the
    request and no cookie is set.  Whatever the outcome, no file changes, no
    process is started and the system limiter does not count the request. *)
Theorem login_route_limited (cfg : Config) (env : Env) (s : Server) (r : Request) :
  Path r = "/login" ->
  has_method (Method r) ["POST"; "OPTIONS"] = true ->
  preflight r = false ->
  serve (ServeHTTP cfg env main) s r = login_pipeline cfg s r
  /\ (files (fst (serve (ServeHTTP cfg env main) s r)),
      effects (fst (serve (ServeHTTP cfg env main) s r)),
      systemStore (fst (serve (ServeHTTP cfg env main) s r)))
     = (files s, effects s, systemStore s)
  /\ (fst (Limiter.Get (rate_of General) (generalStore s) (RemoteAddr r) (At r)) = true ->
      Status (snd (serve (ServeHTTP cfg env main) s r)) = StatusTooManyRequests
      /\ loginStore (fst (serve (ServeHTTP cfg env main) s r)) = loginStore s
      /\ SetCookie (snd (serve (ServeHTTP cfg env main) s r)) = []).
Proof.
  intros Hpath Hmethod Hpre.
  rewrite (login_serve cfg env s r Hpath Hmethod Hpre).
  split; [reflexivity |]. unfold login_pipeline.
  destruct (Limiter.Get (rate_of General) _ _ _) as [[|] c1]; cbn [fst snd].
  - repeat split.
  - destruct (Limiter.Get (rate_of Login) _ _ _) as [[|] c2]; cbn [fst snd].
    + split; [reflexivity | discriminate].
    + split; [reflexivity | discriminate].
Qed.

(** X15. Login, then version, through the router of [main].  A POST to
    /login whose body decodes to the configured credentials, unless a limiter
    turns it away, is answered 200 with the message Login successful; a GET of
    /version that carries the cookie this answer leaves with the browser,
    unless the general limiter turns it away, is answered 200 with the
    configured version; a GET of /version that carries no cookie is, unless
    the limiter turns it away, answered 401. *)
Theorem login_then_version (cfg : Config) (env : Env) (s : Server) (r1 r2 r3 : Request)
        (s3 : Server) :
  Method r1 = "POST" -> Path r1 = "/login" ->
  JsonDecode.Decode (Body r1) no_credentials = (configured cfg, None) ->
  Status (snd (serve (ServeHTTP cfg env main) s r1)) <> StatusTooManyRequests ->
  Method r2 = "GET" -> Path r2 = "/version" ->
  Cookie r2 = cookie_after (Cookie r1) (snd (serve (ServeHTTP cfg env main) s r1)) ->
  Status (snd (serve (ServeHTTP cfg env main)
                     (fst (serve (ServeHTTP cfg env main) s r1)) r2))
  <> StatusTooManyRequests ->
  Method r3 = "GET" -> Path r3 = "/version" -> Cookie r3 = None ->
  Status (snd (serve (ServeHTTP cfg env main) s3 r3)) <> StatusTooManyRequests ->
  (Status (snd (serve (ServeHTTP cfg env main) s r1)) = StatusOK
   /\ Sent (snd (serve (ServeHTTP cfg env main) s r1))
      = JSON (Json.of_strings [("message", "Login successful"); ("sessionId", EmptyString)])
   /\ SetCookie (snd (serve (ServeHTTP cfg env main) s r1)) = [∅; identity cfg])
  /\ (Status (snd (serve (ServeHTTP cfg env main)
                         (fst (serve (ServeHTTP cfg env main) s r1)) r2)) = StatusOK
      /\ Sent (snd (serve (ServeHTTP cfg env main)
                          (fst (serve (ServeHTTP cfg env main) s r1)) r2))
         = JSON (Json.of_strings [("version", VERSION cfg)]))
  /\ Status (snd (serve (ServeHTTP cfg env main) s3 r3)) = StatusUnauthorized.
Proof.
  intros Hm1 Hp1 Hdec Hlim1 Hm2 Hp2 Hcookie Hlim2 Hm3 Hp3 Hc3 Hlim3.
  assert (Hlogin : snd (serve (ServeHTTP cfg env main) s r1)
                   = {| Status := StatusOK;
                        Header := <["Content-Type" := "application/json"]> (Header secured);
                        Sent := JSON (Json.of_strings [("message", "Login successful");
                                                       ("sessionId", EmptyString)]);
                        SetCookie := [∅; identity cfg] |}).
  { revert Hlim1. rewrite login_serve; [| exact Hp1 | now rewrite Hm1 | unfold preflight; now rewrite Hm1].
    unfold login_pipeline.
    destruct (Limiter.Get (rate_of General) _ _ _) as [[|] c1]; cbn [fst snd];
      [intros H; now contradiction H |].
    destruct (Limiter.Get (rate_of Login) _ _ _) as [[|] c2]; cbn [fst snd];
      [intros H; now contradiction H |].
    intros _. rewrite (loginHandler_accepts cfg r1 _ Hdec). reflexivity. }
  assert (Hgate : forall s0 r0,
             Method r0 = "GET" -> Path r0 = "/version" ->
             Status (snd (serve (ServeHTTP cfg env main) s0 r0)) <> StatusTooManyRequests ->
             snd (serve (ServeHTTP cfg env main) s0 r0)
             = match session_of r0 !! "user" with
               | Some _ =>
                 {| Status := StatusOK;
                    Header := <["Content-Type" := "application/json"]> (Header secured);
                    Sent := JSON (Json.of_strings [("version", VERSION cfg)]);
                    SetCookie := [] |}
               | None =>
                 w (snd (http_Error "Unauthorized" StatusUnauthorized
                           {| server := s0; w := secured; registry := None |}))
               end).
  { intros s0 r0 Hm Hp.
    rewrite version_serve; [| exact Hp | now rewrite Hm | unfold preflight; now rewrite Hm].
    unfold version_pipeline.
    destruct (Limiter.Get (rate_of General) _ _ _) as [[|] c1]; cbn [fst snd];
      [intros H; now contradiction H |].
    intros _. rewrite gate_version_run by reflexivity.
    destruct (session_of r0 !! "user"); reflexivity. }
  split; [rewrite Hlogin; repeat split |]. split.
  - rewrite (Hgate _ r2 Hm2 Hp2 Hlim2).
    unfold session_of. rewrite Hcookie, Hlogin. cbn [cookie_after SetCookie last].
    unfold identity. rewrite lookup_singleton_eq. split; reflexivity.
  - rewrite (Hgate s3 r3 Hm3 Hp3 Hlim3). unfold session_of. rewrite Hc3, lookup_empty.
    reflexivity.
Qed.

(** *** Headers that stay

    A header of the response stays as it is through a computation that sets
    no header of its name, or sets it to the value it has. *)

Definition keeps_header (k v : string) {A} (m : M A) : Prop :=
  forall st, Header (w st) !! k = Some v -> Header (w (snd (m st))) !! k = Some v.

Lemma keeps_header_ret k v {A} (a : A) : keeps_header k v (ret a).
Proof. intros st H. exact H. Qed.

Lemma keeps_header_bind k v {A B} (m : M A) (f : A -> M B) :
  keeps_header k v m -> (forall a, keeps_header k v (f a)) -> keeps_header k v (bind m f).
Proof.
  intros Hm Hf st H. unfold bind.
  specialize (Hm st H). destruct (m st) as [a st']. now apply Hf.
Qed.

Lemma keeps_header_Header_Set k v k' v' :
  (k' = k -> v' = v) -> keeps_header k v (Header_Set k' v').
Proof.
  intros Hsame st H. cbn.
  destruct (String.eqb_spec k' k) as [Heq | Hne].
  - rewrite (Hsame Heq), Heq. apply lookup_insert_eq.
  - rewrite lookup_insert_ne by exact Hne. exact H.
Qed.

Lemma keeps_header_with_w k v (f : ResponseWriter -> ResponseWriter) :
  (forall x, Header (f x) = Header x) -> keeps_header k v (with_w f).
Proof. intros Hf st H. cbn. now rewrite Hf. Qed.

Lemma keeps_header_with_server k v f : keeps_header k v (with_server f).
Proof. intros st H. exact H. Qed.

Lemma keeps_header_with_registry k v f : keeps_header k v (with_registry f).
Proof. intros st H. exact H. Qed.

Lemma keeps_header_get_server k v : keeps_header k v get_server.
Proof. intros st H. exact H. Qed.

Lemma keeps_header_store_Get k v r : keeps_header k v (store_Get r).
Proof. intros st H. unfold store_Get. destruct (registry st); exact H. Qed.

Lemma keeps_header_session_Save k v : keeps_header k v session_Save.
Proof. intros st H. exact H. Qed.

Ltac keep_header :=
  repeat first
         [ apply keeps_header_ret
         | apply keeps_header_bind; [| intros ?]
         | apply keeps_header_with_server
         | apply keeps_header_with_registry
         | apply keeps_header_get_server
         | apply keeps_header_store_Get
         | apply keeps_header_session_Save
         | apply keeps_header_with_w; intros ?; reflexivity
         | apply keeps_header_Header_Set;
           let H := fresh in intros H; first [discriminate H | reflexivity]
         | match goal with
           | |- keeps_header _ _ (if ?b then _ else _) => destruct b
           | |- keeps_header _ _ (match ?x with _ => _ end) => destruct x
           end ].

Lemma security_headers_cases (k v : string) (P : string -> string -> Prop) :
  In (k, v) security_headers ->
  P "Content-Security-Policy" "default-src 'self'" ->
  P "Strict-Transport-Security" "max-age=63072000; includeSubDomains; preload" ->
  P "X-Content-Type-Options" "nosniff" ->
  P "X-Frame-Options" "DENY" ->
  P "X-XSS-Protection" "1; mode=block" ->
  P k v.
Proof.
  cbn. intros Hin H1 H2 H3 H4 H5.
  repeat destruct Hin as [Hin | Hin]; try contradiction; inversion Hin; subst; assumption.
Qed.

Lemma endpoint_keeps_header (cfg : Config) (env : Env) (e : Endpoint) (r : Request)
      (k v : string) :
  In (k, v) security_headers ->
  keeps_header k v (endpoint cfg env e r).
Proof.
  intros Hin. revert e.
  apply (security_headers_cases k v
           (fun k v => forall e, keeps_header k v (endpoint cfg env e r)) Hin);
    intros e; destruct e;
    unfold endpoint, loginHandler, versionHandler, optionsHandler, ListServices,
      StartService, StopService, RestartService, service_action, WriteFile, ReadFile,
      ScheduleTask, executeCommand, exec_Output, exec_Run, os_WriteFile, os_ReadFile,
      http_Error, Encode, Write, WriteHeader, log_effect, session_clear, session_put;
    keep_header.
Qed.

Lemma middleware_keeps_header (m : Middleware) (next : Handler) (r : Request)
      (k v : string) :
  In (k, v) security_headers ->
  keeps_header k v (next r) ->
  keeps_header k v (middleware m next r).
Proof.
  intros Hin. revert m next.
  apply (security_headers_cases k v
           (fun k v => forall m next, keeps_header k v (next r) ->
                                      keeps_header k v (middleware m next r)) Hin);
    intros m next Hnext; destruct m;
    unfold middleware, corsHandler, securityHeadersMiddleware, limiterMiddleware,
      isAuthenticated, http_Error, Write, WriteHeader;
    keep_header; exact Hnext.
Qed.

Lemma chained_keeps_header (cfg : Config) (env : Env) (chain : list Middleware)
      (e : Endpoint) (r : Request) (k v : string) :
  In (k, v) security_headers ->
  keeps_header k v (chained cfg env chain e r).
Proof.
  intros Hin. induction chain as [| m chain IH]; cbn [chained fold_right].
  - now apply endpoint_keeps_header.
  - apply middleware_keeps_header; assumption.
Qed.

Lemma secured_headers (k v : string) :
  In (k, v) security_headers -> Header secured !! k = Some v.
Proof.
  intros Hin.
  apply (security_headers_cases k v (fun k v => Header secured !! k = Some v) Hin);
    reflexivity.
Qed.

(** X16. On a router whose first two middlewares are CORS and
    [securityHeadersMiddleware], as [main] adds them, every request that is
    matched to a handler and is not a CORS preflight is answered with the five
    security headers at the values the middleware gives them, whatever the
    middlewares and the handler behind it do: the answers 400, 401, 429 and
    500 carry them as the answers 200 do, and no handler or middleware of the
    sources sets one of them to another value. *)
Theorem security_headers_kept (cfg : Config) (env : Env) (rt : Router)
        (use : list Middleware) (s : Server) (r : Request) (chain : list Middleware)
        (e : Endpoint) (k v : string) :
  Use rt = Cors :: SecurityHeaders :: use ->
  Match rt r = Found chain e ->
  preflight r = false ->
  In (k, v) security_headers ->
  Header (snd (serve (ServeHTTP cfg env rt) s r)) !! k = Some v.
Proof.
  intros Huse Hmatch Hpre Hin.
  unfold serve, ServeHTTP. rewrite Hmatch.
  unfold Match in Hmatch. apply match_entries_use in Hmatch as [rest ->].
  rewrite Huse. cbn [app chained fold_right middleware].
  unfold corsHandler. fold (preflight r). rewrite Hpre.
  unfold securityHeadersMiddleware. run_monad.
  apply (chained_keeps_header cfg env (use ++ rest) e r k v Hin).
  cbn [w]. now apply secured_headers.
Qed.

(** *** What a chain of middlewares leaves of the server

    A relation between the server before and after that holds through the
    handler, and through the counting of every limiter of the chain, holds
    through the whole chain: the other middlewares do not touch the
    server. *)

Section ChainServer.

Variable R : Server -> Server -> Prop.
Variable cfg : Config.
Variable env : Env.
Variable e : Endpoint.

Hypothesis R_refl : forall s, R s s.
Hypothesis R_trans : forall s1 s2 s3, R s1 s2 -> R s2 s3 -> R s1 s3.
Hypothesis R_endpoint : forall r st, R (server st) (server (snd (endpoint cfg env e r st))).

Lemma chained_server (chain : list Middleware) :
  (forall l, In (Limit l) chain -> forall c s, R s (set_store l c s)) ->
  forall r st, R (server st) (server (snd (chained cfg env chain e r st))).
Proof.
  induction chain as [| m chain IH]; intros Hlimit r st; cbn [chained fold_right].
  - apply R_endpoint.
  - assert (Hnext : forall st', R (server st')
                                  (server (snd (fold_right middleware (endpoint cfg env e)
                                                           chain r st')))).
    { intros st'. apply IH. intros l Hl. apply Hlimit. now right. }
    destruct m as [| | l |]; cbn [middleware].
    + unfold corsHandler. destruct (_ && _); [apply R_refl | apply Hnext].
    + unfold securityHeadersMiddleware. run_monad. apply (Hnext (mkState _ _ _)).
    + rewrite limiterMiddleware_run. cbn zeta.
      destruct (fst (Limiter.Get _ _ _ _)).
      * cbn. apply Hlimit. now left.
      * eapply R_trans; [| apply Hnext]. cbn [server]. apply Hlimit. now left.
    + unfold isAuthenticated, store_Get. run_monad.
      destruct (registry st) as [v |]; cbn.
      * destruct (v !! "user"); cbn; [apply Hnext | apply R_refl].
      * destruct (match Cookie r with Some c => c | None => ∅ end !! "user"); cbn;
          [apply (Hnext (mkState _ _ _)) | apply R_refl].
Qed.

Lemma ServeHTTP_server (rt : Router) (r : Request) (s : Server) :
  (forall chain e', Match rt r = Found chain e' ->
                    e' = e /\ forall l, In (Limit l) chain -> forall c s0, R s0 (set_store l c s0)) ->
  R s (fst (serve (ServeHTTP cfg env rt) s r)).
Proof.
  intros Hfound. unfold serve, ServeHTTP. cbn [fst].
  destruct (Match rt r) as [chain e' | |] eqn:Hm.
  - destruct (Hfound chain e' eq_refl) as [-> Hlimit].
    apply (chained_server chain Hlimit r (mkState s fresh None)).
  - apply R_refl.
  - apply R_refl.
Qed.

End ChainServer.

Lemma endpoint_stores (cfg : Config) (env : Env) (e : Endpoint) (r : Request) (st : State)
      (l : LimiterId) :
  store_of l (server (snd (endpoint cfg env e r st))) = store_of l (server st).
Proof.
  destruct e; cbn [endpoint];
    [ now rewrite loginHandler_server | reflexivity | reflexivity | .. ];
    unfold ListServices, StartService, StopService, RestartService, service_action,
      WriteFile, ReadFile, ScheduleTask, executeCommand, exec_Output, exec_Run,
      os_WriteFile, os_ReadFile;
    run_monad; rewrite ?parseUnits_units;
    repeat (match goal with
            | |- context [if ?b then _ else _] => destruct b
            | |- context [match ?x with Some _ => _ | None => _ end] => destruct x
            end; cbn; rewrite ?parseUnits_units; cbn);
    destruct l; reflexivity.
Qed.

(** X17. A limiter counts the requests of the routes it stands in front of
    and no others.  On any router, a request leaves the counters of a limiter
    as they are unless it is matched to a route that has this limiter among
    its middlewares; a request answered 404 or 405 moves no counter.  On the
    router of [main] with the system routes, the login limiter counts
    requests for /login only and the system limiter requests under /system
    only. *)
Theorem limiter_counts_own_routes (cfg : Config) (env : Env) (rt : Router) (s : Server)
        (r : Request) (l : LimiterId) :
  ((forall chain e, Match rt r = Found chain e -> ~ In (Limit l) chain) ->
   store_of l (fst (serve (ServeHTTP cfg env rt) s r)) = store_of l s)
  /\ (Path r <> "/login" ->
      loginStore (fst (serve (ServeHTTP cfg env (RegisterSystemRoutes main)) s r))
      = loginStore s)
  /\ (String.prefix "/system" (Path r) = false ->
      systemStore (fst (serve (ServeHTTP cfg env (RegisterSystemRoutes main)) s r))
      = systemStore s).
Proof.
  assert (Hany : forall rt' l',
             (forall chain e, Match rt' r = Found chain e -> ~ In (Limit l') chain) ->
             store_of l' (fst (serve (ServeHTTP cfg env rt') s r)) = store_of l' s).
  { intros rt' l' Hnot. unfold serve, ServeHTTP. cbn [fst].
    destruct (Match rt' r) as [chain e | |] eqn:Hm; [| reflexivity | reflexivity].
    apply (chained_server (fun a b => store_of l' b = store_of l' a) cfg env e).
    - reflexivity.
    - intros s1 s2 s3 H12 H23. congruence.
    - intros r0 st0. apply endpoint_stores.
    - intros l0 Hin c s0.
      assert (Hne : l0 <> l') by (intros ->; exact (Hnot chain e eq_refl Hin)).
      destruct l0, l'; try reflexivity; contradiction. }
  split; [apply Hany |]. split.
  - intros Hpath. apply (Hany (RegisterSystemRoutes main) Login).
    intros chain e Hm Hin. apply routes_found in Hm.
    destruct Hm as [(_ & Hp & _) | [(_ & _ & ->) | (_ & ->)]];
      [contradiction | |];
      cbn in Hin; repeat destruct Hin as [Hin | Hin]; try discriminate; contradiction.
  - intros Hprefix. apply (Hany (RegisterSystemRoutes main) System).
    intros chain e Hm Hin. apply routes_found in Hm.
    destruct Hm as [(_ & _ & ->) | [(_ & _ & ->) | (Htable & _)]].
    + cbn in Hin; repeat destruct Hin as [Hin | Hin]; try discriminate; contradiction.
    + cbn in Hin; repeat destruct Hin as [Hin | Hin]; try discriminate; contradiction.
    + cbn in Htable.
      repeat destruct Htable as [Htable | Htable]; try contradiction;
        inversion Htable as [[Hm0 Hp He]]; rewrite <- Hp in Hprefix; discriminate.
Qed.

(** X18. The router that [main] serves, on which the system routes are not
    registered, starts no process and reads or writes no file, whatever the
    request: its two handlers and its middlewares leave the files and the log
    of effects as they are. *)
Theorem main_touches_nothing (cfg : Config) (env : Env) (s : Server) (r : Request) :
  files (fst (serve (ServeHTTP cfg env main) s r)) = files s
  /\ effects (fst (serve (ServeHTTP cfg env main) s r)) = effects s.
Proof.
  pose (R := fun a b : Server => files b = files a /\ effects b = effects a).
  assert (Hrefl : forall a, R a a) by (intros a; split; reflexivity).
  assert (Htrans : forall a b c, R a b -> R b c -> R a c).
  { intros a b c [H1 H2] [H3 H4]. split; congruence. }
  assert (Hlimit : forall (l : LimiterId) c a, R a (set_store l c a)).
  { intros l c a. destruct l; split; reflexivity. }
  unfold serve, ServeHTTP. cbn [fst].
  destruct (Match main r) as [chain e | |] eqn:Hm; [| split; reflexivity ..].
  rewrite main_match in Hm.
  assert (He : e = LoginHandler \/ e = VersionHandler).
  { repeat match type of Hm with
           | (if ?b then _ else _) = _ => destruct b
           end; inversion Hm; auto. }
  apply (chained_server R cfg env e Hrefl Htrans).
  - intros r0 st0. destruct He as [-> | ->]; cbn [endpoint].
    + rewrite loginHandler_server. apply Hrefl.
    + apply Hrefl.
  - intros l _. apply Hlimit.
Qed.





(** ** More on the unit parser *)

Lemma Split_from_sep (a b : string) (sep : ascii) : forall cur,
  Split_from (a +:+ String sep b) sep cur
  = Split_from a sep cur ++ Split_from b sep EmptyString.
Proof.
  induction a as [| c a IH]; intros cur.
  - rewrite append_nil_l. cbn [Split_from]. now rewrite Ascii.eqb_refl.
  - rewrite append_cons. cbn [Split_from]. destruct (Ascii.eqb c sep).
    + cbn [app]. now rewrite IH.
    + apply IH.
Qed.

Lemma units_of_lines_app (unitType : string) (l1 l2 : list string) :
  units_of_lines unitType (l1 ++ l2)
  = units_of_lines unitType l1 ++ units_of_lines unitType l2.
Proof.
  unfold units_of_lines. now rewrite List.map_app, List.filter_app, List.map_app.
Qed.

(** X20. [parseUnits] works line by line: the units of two listings put
    one after the other with a newline between them are the units of the
    first followed by the units of the second.  So a newline at the end of a
    listing, as systemctl writes one, adds no unit; and there are never more
    units than lines. *)
Theorem parseUnits_concat (a b unitType : string) :
  fst (parseUnits (a +:+ String nl b) unitType)
  = fst (parseUnits a unitType) ++ fst (parseUnits b unitType)
  /\ fst (parseUnits (a +:+ String nl EmptyString) unitType) = fst (parseUnits a unitType)
  /\ length (fst (parseUnits a unitType)) <= length (Split a nl).
Proof.
  assert (Hcat : forall x y,
             fst (parseUnits (x +:+ String nl y) unitType)
             = fst (parseUnits x unitType) ++ fst (parseUnits y unitType)).
  { intros x y. rewrite !parseUnits_units. cbn [fst]. unfold Split.
    now rewrite Split_from_sep, units_of_lines_app. }
  split; [apply Hcat |]. split.
  - rewrite Hcat. replace (fst (parseUnits EmptyString unitType)) with (@nil Unit).
    + apply app_nil_r.
    + rewrite parseUnits_units. reflexivity.
  - rewrite parseUnits_units. cbn [fst]. unfold units_of_lines.
    rewrite length_map.
    etransitivity; [apply List.filter_length_le |]. now rewrite length_map.
Qed.

(** A string without any of the six bytes of ASCII white space. *)
Fixpoint spaceless (s : string) : bool :=
  match s with
  | EmptyString => true
  | String c s' => negb (asciiSpace c) && spaceless s'
  end.

(** A field: not empty, and without ASCII white space. *)
Definition field_ok (f : string) : Prop :=
  f <> EmptyString /\ spaceless f = true.

Definition rune_ok (rb : N * string) : Prop :=
  snd rb <> EmptyString /\ (IsSpace (fst rb) = false -> spaceless (snd rb) = true).

Lemma spaceless_app (x y : string) : spaceless (x +:+ y) = spaceless x && spaceless y.
Proof.
  induction x as [| c x IH]; [reflexivity |].
  rewrite append_cons. cbn [spaceless]. now rewrite IH, andb_assoc.
Qed.

Lemma append_not_empty_r (x y : string) : y <> EmptyString -> x +:+ y <> EmptyString.
Proof. destruct x; [now rewrite append_nil_l | now rewrite append_cons]. Qed.

Lemma append_not_empty_l (x y : string) : x <> EmptyString -> x +:+ y <> EmptyString.
Proof. destruct x; [congruence | now rewrite append_cons]. Qed.

Lemma field_ok_app (x y : string) : field_ok x -> field_ok y -> field_ok (x +:+ y).
Proof.
  intros [Hx Sx] [Hy Sy]. split.
  - now apply append_not_empty_r.
  - now rewrite spaceless_app, Sx, Sy.
Qed.

Lemma flush_ok (cur : option string) (rest : list string) :
  (forall x, cur = Some x -> field_ok x) ->
  Forall field_ok rest ->
  Forall field_ok (flush cur rest).
Proof.
  intros Hcur Hrest. destruct cur as [x |]; cbn [flush]; [| exact Hrest].
  constructor; [now apply Hcur | exact Hrest].
Qed.

Lemma Fields_ascii_ok (s : string) : forall cur,
  (forall x, cur = Some x -> field_ok x) ->
  Forall field_ok (Fields_ascii s cur).
Proof.
  induction s as [| c s IH]; intros cur Hcur; cbn [Fields_ascii].
  - apply flush_ok; [exact Hcur | constructor].
  - destruct (asciiSpace c) eqn:Hc.
    + apply flush_ok; [exact Hcur |]. apply IH. discriminate.
    + apply IH. intros x Hx.
      assert (Hone : field_ok (String c EmptyString)).
      { split; [discriminate |]. cbn [spaceless]. now rewrite Hc. }
      destruct cur as [y |]; inversion Hx; subst; [| exact Hone].
      apply field_ok_app; [now apply Hcur | exact Hone].
Qed.

Lemma FieldsFunc_runes_ok (rs : list (N * string)) :
  Forall rune_ok rs ->
  forall cur, (forall x, cur = Some x -> field_ok x) ->
  Forall field_ok (FieldsFunc_runes IsSpace rs cur).
Proof.
  induction 1 as [| [r bs] rs [Hne Hsp] _ IH]; intros cur Hcur; cbn [FieldsFunc_runes].
  - apply flush_ok; [exact Hcur | constructor].
  - cbn [fst snd] in Hne, Hsp. destruct (IsSpace r) eqn:Hr.
    + apply flush_ok; [exact Hcur |]. apply IH. discriminate.
    + apply IH. intros x Hx.
      assert (Hone : field_ok bs) by (split; [exact Hne | now apply Hsp]).
      destruct cur as [y |]; inversion Hx; subst; [| exact Hone].
      apply field_ok_app; [now apply Hcur | exact Hone].
Qed.

Lemma asciiSpace_high (c : ascii) : (33 <= byte c)%N -> asciiSpace c = false.
Proof.
  intros H. unfold asciiSpace. cbn zeta.
  replace (byte c <=? 13)%N with false by (symmetry; apply N.leb_gt; lia).
  replace (byte c =? 32)%N with false by (symmetry; apply N.eqb_neq; lia).
  now rewrite andb_false_r.
Qed.

Lemma asciiSpace_IsSpace (c : ascii) :
  (byte c < 128)%N -> IsSpace (byte c) = false -> asciiSpace c = false.
Proof.
  intros Hlow. unfold IsSpace, asciiSpace. cbn zeta.
  replace (byte c <=? 255)%N with true by (symmetry; apply N.leb_le; lia).
  intros H. apply orb_false_elim in H as [H _]. apply orb_false_elim in H as [H _].
  exact H.
Qed.

Ltac bytes_facts :=
  repeat match goal with
         | H : (_ || _) = false |- _ => apply orb_false_elim in H as [? ?]
         | H : (_ && _) = true |- _ => apply andb_true_iff in H as [? ?]
         | H : negb _ = false |- _ => apply negb_false_iff in H
         | H : cont _ = true |- _ => unfold cont in H
         | H : (_ <? _)%N = true |- _ => apply N.ltb_lt in H
         | H : (_ <? _)%N = false |- _ => apply N.ltb_ge in H
         | H : (_ <=? _)%N = true |- _ => apply N.leb_le in H
         | H : (_ <=? _)%N = false |- _ => apply N.leb_gt in H
         | H : (_ =? _)%N = true |- _ => apply N.eqb_eq in H
         | H : (_ =? _)%N = false |- _ => apply N.eqb_neq in H
         end.

(** The bytes of a rune that is not white space hold no ASCII white space:
    the bytes of an encoding of several bytes, and a byte that does not
    decode, are all above the ASCII range. *)
Lemma DecodeRuneInString_ok (c0 : ascii) (t : string) :
  rune_ok (fst (DecodeRuneInString (String c0 t)),
           take (snd (DecodeRuneInString (String c0 t))) (String c0 t)).
Proof.
  unfold DecodeRuneInString. cbv zeta.
  destruct (byte c0 <? 128)%N eqn:Hascii.
  - split; [discriminate |]. cbn [fst snd take spaceless]. intros Hsp.
    apply N.ltb_lt in Hascii. now rewrite asciiSpace_IsSpace.
  - apply N.ltb_ge in Hascii.
    assert (H0 : asciiSpace c0 = false) by (apply asciiSpace_high; lia).
    repeat match goal with
           | |- context [if ?b then _ else _] => destruct b eqn:?
           | |- context [match ?x with EmptyString => _ | String _ _ => _ end] =>
             destruct x
           end;
      (split; [discriminate |]); intros _; cbn [fst snd take spaceless];
      bytes_facts;
      rewrite H0, ?asciiSpace_high by lia; reflexivity.
Qed.

Lemma range_fuel_ok (fuel : nat) : forall s, Forall rune_ok (range_fuel fuel s).
Proof.
  induction fuel as [| fuel IH]; intros s; cbn [range_fuel]; [constructor |].
  destruct s as [| c0 t]; [constructor |].
  pose proof (DecodeRuneInString_ok c0 t) as Hok.
  destruct (DecodeRuneInString (String c0 t)) as [r width].
  constructor; [exact Hok | apply IH].
Qed.

Lemma Fields_ok (s : string) : Forall field_ok (Fields s).
Proof.
  unfold Fields, FieldsFunc, range.
  destruct (hasNonASCII s).
  - apply FieldsFunc_runes_ok; [apply range_fuel_ok | discriminate].
  - apply Fields_ascii_ok. discriminate.
Qed.

Lemma at_index_ok (fields : list string) (i : nat) :
  Forall field_ok fields -> i < length fields -> field_ok (at_index fields i).
Proof.
  intros Hall Hi. unfold at_index.
  apply (proj1 (List.Forall_forall _ _) Hall). now apply nth_In.
Qed.

(** X21. Every unit that [parseUnits] returns has a name, a load state, an
    active state and a sub-state that are not empty and hold no ASCII white
    space (space, tab, newline, vertical tab, form feed, carriage return),
    whether the line was split on the ASCII path of [strings.Fields] or on its
    UTF-8 path; its name contains the suffix asked for; and its description
    is not empty: it is one or more such words with single spaces between
    them, whatever white space the listing had there. *)
Theorem parseUnits_fields (data unitType : string) (u : Unit) :
  In u (fst (parseUnits data unitType)) ->
  Contains (UNIT u) unitType = true
  /\ field_ok (UNIT u) /\ field_ok (LOAD u) /\ field_ok (ACTIVE u) /\ field_ok (SUB u)
  /\ DESCRIPTION u <> EmptyString
  /\ exists word words,
       Forall field_ok (word :: words) /\ DESCRIPTION u = Join (word :: words) " ".
Proof.
  rewrite parseUnits_units. cbn [fst]. unfold units_of_lines. intros Hin.
  apply List.in_map_iff in Hin as (fields & <- & Hin).
  apply List.filter_In in Hin as [Hin Hel].
  apply List.in_map_iff in Hin as (line & <- & _).
  pose proof (Fields_ok line) as Hall.
  unfold eligible in Hel. apply andb_true_iff in Hel as [Hlen Hcontains].
  apply Nat.leb_le in Hlen.
  cbn [unit_of UNIT LOAD ACTIVE SUB DESCRIPTION].
  split; [exact Hcontains |].
  repeat (split; [apply at_index_ok; [exact Hall | lia] |]).
  destruct (Fields line) as [| f0 [| f1 [| f2 [| f3 [| f4 rest]]]]];
    cbn [length] in Hlen; try lia.
  cbn [skipn].
  assert (Hrest : Forall field_ok (f4 :: rest)).
  { repeat match goal with
           | H : Forall _ (_ :: _) |- _ => inversion H; clear H; subst
           end.
    now constructor. }
  split.
  - inversion Hrest as [| ? ? [Hne _] _]; subst. unfold Join.
    destruct rest; cbn [String.concat]; [exact Hne | now apply append_not_empty_l].
  - exists f4, rest. split; [exact Hrest | reflexivity].
Qed.

(** X22. [loginHandler] answers 200, and sets a cookie, for no other body
    than one that decodes to the configured user name and password, extra
    members, repeated members and keys in any case included: for every
    request the answer is 200, 400 or 401, it is 200 exactly when the body
    decodes without error to the configured pair, and a cookie is set exactly
    then. *)
Theorem login_only_configured (cfg : Config) (s : Server) (r : Request) :
  let resp := snd (serve (loginHandler cfg) s r) in
  (Status resp = StatusOK
   <-> JsonDecode.Decode (Body r) no_credentials = (configured cfg, None))
  /\ (SetCookie resp <> []
      <-> JsonDecode.Decode (Body r) no_credentials = (configured cfg, None))
  /\ (Status resp = StatusOK \/ Status resp = StatusBadRequest
      \/ Status resp = StatusUnauthorized).
Proof.
  intros resp. subst resp.
  unfold serve, loginHandler. fold no_credentials.
  destruct (JsonDecode.Decode (Body r) no_credentials) as [[u p] [e |]].
  - cbn. repeat split; try discriminate; try congruence; auto.
  - cbn [Username Password]. unfold configured.
    destruct (String.eqb_spec u (USERNAME cfg)) as [-> | Hu];
      [destruct (String.eqb_spec p (PASSWORD cfg)) as [-> | Hp] |];
      cbn [andb].
    + unfold store_Get, session_clear, session_put, session_Save. run_monad.
      repeat split; try discriminate; auto.
    + cbn. repeat split; try discriminate; try congruence; auto.
    + cbn. repeat split; try discriminate; try congruence; auto.
Qed.

(** ** The further theorems at concrete inputs *)

(** An operating system on which every process fails and no path can be
    written. *)
Definition broken : Env :=
  {| run := fun _ => {| started := true; exit_status := 1;
                        written := [(Stderr, "Failed to connect to bus")] |};
     writable := fun _ => false |}.

Definition restart_request : Request :=
  {| Method := "POST"; Path := "/system/services/restart";
     Query := <["target" := ["web.service"]]> ∅;
     Body := None; Cookie := None; RemoteAddr := "203.0.113.7"; At := 1000;
     Preflight := false |}.

Lemma lifecycle_outcome_witness :
  lifecycle RestartServiceHandler = Some ("restart", "restarting", "restarted")
  /\ Get (Query restart_request) "target" <> EmptyString
  /\ serve (endpoint admin broken RestartServiceHandler) idle restart_request
     = (add_effects [Spawn ["systemctl"; "--user"; "restart"; "web.service"]] idle,
        plain_error "Error restarting service web.service" StatusInternalServerError)
  /\ serve (endpoint admin chatty RestartServiceHandler) idle restart_request
     = (add_effects [Spawn ["systemctl"; "--user"; "restart"; "web.service"]] idle,
        json_ok (Json.of_strings [("message", "Service web.service restarted successfully")])).
Proof.
  assert (H1 : lifecycle RestartServiceHandler = Some ("restart", "restarting", "restarted"))
    by reflexivity.
  assert (H2 : Get (Query restart_request) "target" <> EmptyString) by discriminate.
  split; [exact H1 |]. split; [exact H2 |]. split.
  - exact (lifecycle_outcome admin broken RestartServiceHandler _ _ _ idle restart_request
             H1 H2).
  - exact (lifecycle_outcome admin chatty RestartServiceHandler _ _ _ idle restart_request
             H1 H2).
Defined.






Definition at_request : Request :=
  {| Method := "POST"; Path := "/system/at";
     Query := <["time" := ["now + 1 minute"]]> (<["command" := ["touch /tmp/done"]]> ∅);
     Body := None; Cookie := None; RemoteAddr := "203.0.113.7"; At := 1000;
     Preflight := false |}.

Lemma ScheduleTask_outcome_witness :
  Get (Query at_request) "time" <> EmptyString
  /\ Get (Query at_request) "command" <> EmptyString
  /\ at_line "touch /tmp/done" "now + 1 minute"
     = "echo " +:+ quote +:+ "touch /tmp/done" +:+ quote +:+ " | at now + 1 minute"
  /\ serve (ScheduleTask chatty) idle at_request
     = (add_effects
          [Spawn ["sh"; "-c"; at_line "touch /tmp/done" "now + 1 minute"]] idle,
        json_ok (Json.of_strings [("message", "Task scheduled at now + 1 minute")])).
Proof.
  assert (H1 : Get (Query at_request) "time" <> EmptyString) by discriminate.
  assert (H2 : Get (Query at_request) "command" <> EmptyString) by discriminate.
  split; [exact H1 |]. split; [exact H2 |]. split; [reflexivity |].
  exact (ScheduleTask_outcome chatty idle at_request H1 H2).
Defined.

(** A login by a browser that holds some earlier session. *)
Definition relogin : Request :=
  {| Method := "POST"; Path := "/login"; Query := ∅;
     Body := Some (credentials_json "admin" "secret");
     Cookie := Some (<["theme" := "dark"]> {["user" := "guest"]});
     RemoteAddr := "203.0.113.7"; At := 1000; Preflight := false |}.

Lemma login_success_witness :
  JsonDecode.Decode (Body relogin) no_credentials = (configured admin, None)
  /\ serve (loginHandler admin) idle relogin = (idle, login_ok admin)
  /\ cookie_after (Cookie relogin) (snd (serve (loginHandler admin) idle relogin))
     = Some {["user" := "admin"]}.
Proof.
  assert (H1 : JsonDecode.Decode (Body relogin) no_credentials = (configured admin, None))
    by reflexivity.
  pose proof (login_success admin idle relogin H1) as (Hrun & Hcookie & _).
  split; [exact H1 |]. split; [exact Hrun | exact Hcookie].
Defined.

Definition shouted_login : Request :=
  post_login (Some (Json.Object [("PASSWORD", Json.Str "secret");
                                 ("Username", Json.Str "admin")])).

Lemma login_keys_fold_witness :
  JsonDecode.names "Username" "username" = true
  /\ JsonDecode.names "PASSWORD" "password" = true
  /\ serve (loginHandler admin) idle shouted_login = (idle, login_ok admin).
Proof.
  assert (H1 : JsonDecode.names "Username" "username" = true) by reflexivity.
  assert (H2 : JsonDecode.names "PASSWORD" "password" = true) by reflexivity.
  split; [exact H1 |]. split; [exact H2 |].
  exact (login_keys_fold admin idle shouted_login "Username" "PASSWORD" H1 H2
           (or_intror eq_refl)).
Defined.


Definition preflight_version : Request :=
  {| Method := "OPTIONS"; Path := "/version"; Query := ∅; Body := None;
     Cookie := None; RemoteAddr := "203.0.113.7"; At := 1000; Preflight := true |}.


Lemma preflight_answered_by_cors_witness :
  (Path preflight_version = "/login" \/ Path preflight_version = "/version")
  /\ preflight preflight_version = true
  /\ fst (serve (ServeHTTP admin chatty main) idle preflight_version) = idle
  /\ Status (snd (serve (ServeHTTP admin chatty main) idle preflight_version)) = StatusOK.
Proof.
  assert (H1 : Path preflight_version = "/login" \/ Path preflight_version = "/version")
    by (right; reflexivity).
  assert (H2 : preflight preflight_version = true) by reflexivity.
  pose proof (preflight_answered_by_cors admin chatty idle preflight_version H1 H2)
    as (Hs & Hst & _).
  split; [exact H1 |]. split; [exact H2 |]. split; [exact Hs | exact Hst].
Defined.

(** A server on which the client has used up the general limit of the
    minute that ends at time 60000000000. *)
Definition busy : Server :=
  {| files := ∅; effects := []; generalStore := {[client := (10, 60000000000)%Z]};
     loginStore := ∅; systemStore := ∅ |}.

Lemma login_route_limited_witness :
  Path good_login = "/login"
  /\ has_method (Method good_login) ["POST"; "OPTIONS"] = true
  /\ preflight good_login = false
  /\ fst (Limiter.Get (rate_of General) (generalStore busy) (RemoteAddr good_login)
                      (At good_login)) = true
  /\ Status (snd (serve (ServeHTTP admin chatty main) busy good_login))
     = StatusTooManyRequests
  /\ loginStore (fst (serve (ServeHTTP admin chatty main) busy good_login)) = ∅
  /\ SetCookie (snd (serve (ServeHTTP admin chatty main) busy good_login)) = [].
Proof.
  assert (H1 : Path good_login = "/login") by reflexivity.
  assert (H2 : has_method (Method good_login) ["POST"; "OPTIONS"] = true) by reflexivity.
  assert (H3 : preflight good_login = false) by reflexivity.
  assert (H4 : fst (Limiter.Get (rate_of General) (generalStore busy)
                                (RemoteAddr good_login) (At good_login)) = true)
    by reflexivity.
  split; [exact H1 |]. split; [exact H2 |]. split; [exact H3 |]. split; [exact H4 |].
  exact (proj2 (proj2 (login_route_limited admin chatty busy good_login H1 H2 H3)) H4).
Defined.

Definition get_version (c : option Values) : Request :=
  {| Method := "GET"; Path := "/version"; Query := ∅; Body := None; Cookie := c;
     RemoteAddr := "203.0.113.7"; At := 2000; Preflight := false |}.

Lemma login_then_version_witness :
  Status (snd (serve (ServeHTTP admin chatty main) idle good_login)) = StatusOK
  /\ Sent (snd (serve (ServeHTTP admin chatty main)
                      (fst (serve (ServeHTTP admin chatty main) idle good_login))
                      (get_version (Some (identity admin)))))
     = JSON (Json.of_strings [("version", "1.0")])
  /\ Status (snd (serve (ServeHTTP admin chatty main) idle (get_version None)))
     = StatusUnauthorized.
Proof.
  pose proof (login_then_version admin chatty idle good_login
                (get_version (Some (identity admin))) (get_version None) idle
                eq_refl eq_refl eq_refl ltac:(vm_compute; discriminate)
                eq_refl eq_refl eq_refl ltac:(vm_compute; discriminate)
                eq_refl eq_refl eq_refl ltac:(vm_compute; discriminate))
    as ((H1 & _) & (_ & H2) & H3).
  split; [exact H1 |]. split; [exact H2 | exact H3].
Defined.

Definition bad_login : Request := post_login (Some (credentials_json "admin" "guess")).

Lemma security_headers_kept_witness :
  Use main = Cors :: SecurityHeaders :: [Limit General]
  /\ Match main bad_login
     = Found [Cors; SecurityHeaders; Limit General; Limit Login] LoginHandler
  /\ preflight bad_login = false
  /\ In ("X-Frame-Options", "DENY") security_headers
  /\ Status (snd (serve (ServeHTTP admin chatty main) idle bad_login)) = StatusUnauthorized
  /\ Header (snd (serve (ServeHTTP admin chatty main) idle bad_login)) !! "X-Frame-Options"
     = Some "DENY".
Proof.
  assert (H1 : Use main = Cors :: SecurityHeaders :: [Limit General]) by reflexivity.
  assert (H2 : Match main bad_login
               = Found [Cors; SecurityHeaders; Limit General; Limit Login] LoginHandler)
    by reflexivity.
  assert (H3 : preflight bad_login = false) by reflexivity.
  assert (H4 : In ("X-Frame-Options", "DENY") security_headers) by (cbn; auto 10).
  split; [exact H1 |]. split; [exact H2 |]. split; [exact H3 |]. split; [exact H4 |].
  split; [reflexivity |].
  exact (security_headers_kept admin chatty main _ idle bad_login _ _ _ _ H1 H2 H3 H4).
Defined.

Lemma parseUnits_fields_witness :
  In {| UNIT := "dbus.service"; LOAD := "loaded"; ACTIVE := "active"; SUB := "running";
        DESCRIPTION := "D-Bus User Message Bus" |}
     (fst (parseUnits (Join [header_line; dbus_line; web_line] (String nl EmptyString))
                      ".service"))
  /\ Contains "dbus.service" ".service" = true
  /\ field_ok "running"
  /\ "D-Bus User Message Bus" <> EmptyString.
Proof.
  assert (H1 : In {| UNIT := "dbus.service"; LOAD := "loaded"; ACTIVE := "active";
                     SUB := "running"; DESCRIPTION := "D-Bus User Message Bus" |}
                  (fst (parseUnits (Join [header_line; dbus_line; web_line]
                                         (String nl EmptyString)) ".service")))
    by (left; reflexivity).
  pose proof (parseUnits_fields _ _ _ H1) as (Hc & _ & _ & _ & Hsub & Hd & _).
  split; [exact H1 |]. split; [exact Hc |]. split; [exact Hsub | exact Hd].
Defined.

